(** * Gaussian plume dispersion kernels

    A shallow embedding of the two C extension modules of the repository,
    [src/modules/cs_module.c] and [src/modules/spam_module.c], and the
    properties of their grid updaters.

    Numeric model.  A C [double] is a real number ([R]): every operation is
    exact, there is no rounding, overflow, underflow, infinity or NaN, and
    the functions of [<math.h>] are the mathematical functions they
    approximate.  Statements that would depend on rounding are stated as
    facts of exact arithmetic.  An [npy_intp] / [Py_ssize_t] is an integer
    ([Z]); the conversion of a double to [int] is bounded by the range of
    [int]. *)

From Stdlib Require Import Reals Lra Lia ZArith List String Bool Psatz.
Import ListNotations.
Open Scope R_scope.

(** ** <math.h> *)

Module CMath.

(** [M_PI] is the literal 3.14159265358979323846, pi to the precision of a
    double; over the reals it is pi itself. *)
Definition M_PI : R := PI.

Definition fabs (x : R) : R := Rabs x.
Definition fmax (x y : R) : R := Rmax x y.
Definition fmin (x y : R) : R := Rmin x y.

(** [pow(x, y)]: the integer power when [y] is a whole number (this is the
    case of [pow(_, 2)]), and [exp (y * ln x)] otherwise (the case of
    [pow(_, -0.5)], always called on a base >= 1). *)
Definition pow (x y : R) : R :=
  if Req_dec_T (IZR (Int_part y)) y then powerRZ x (Int_part y)
  else Rpower x y.

(** [atan2(y, x)]: the angle of the point (x, y), in (-pi, pi]. *)
Definition atan2 (y x : R) : R :=
  if Rlt_dec 0 x then atan (y / x)
  else if Rlt_dec x 0 then
    (if Rle_dec 0 y then atan (y / x) + PI else atan (y / x) - PI)
  else if Rlt_dec 0 y then PI / 2
  else if Rlt_dec y 0 then - (PI / 2)
  else 0.

Definition INT_MAX : Z := 2147483647.
Definition INT_MIN : Z := -2147483648.

(** Truncation toward zero. *)
Definition trunc (r : R) : Z :=
  if Rle_dec 0 r then Int_part r else (- Int_part (- r))%Z.

(** The conversion [(int) r]: truncation toward zero when the result is an
    [int].  Otherwise the conversion is undefined in C; the instruction
    compilers emit for it on x86-64 (cvttsd2si) gives [INT_MIN], which is
    what is modelled. *)
Definition int_of_double (r : R) : Z :=
  let t := trunc r in
  if ((INT_MIN <=? t) && (t <=? INT_MAX))%Z then t else INT_MIN.

End CMath.

(** ** The part of the CPython / NumPy C API the modules use *)

Module Py.

Inductive npy_type : Set := NPY_DOUBLE | NPY_FLOAT | NPY_LONG.

(** Header of a NumPy array: number of dimensions, element type, the first
    two dimensions and the first two strides (in bytes). *)
Record PyArrayObject : Set := mkArray {
  PyArray_NDIM : Z;
  PyArray_TYPE : npy_type;
  dims0 : Z;
  dims1 : Z;
  PyArray_STRIDE0 : Z;
  PyArray_STRIDE1 : Z
}.

#[warnings="-register-all"]
Inductive PyObject : Type :=
| PyFloat (r : R)
| PyLong (z : Z)
| PyStr (u : string)
| PyTuple (items : list PyObject)
| PyList (items : list PyObject)
| PyArray (a : PyArrayObject)
| PyNone.

Inductive exc : Set := TypeError | IndexError | ValueError | OverflowError.

(** What a C function of the module returns: [NULL] or [Py_None]. *)
Inductive retval : Set := NULL | Py_None.

(** The buffer behind [PyArray_DATA(grid)], addressed in elements relative
    to the data pointer.  A store outside the array is a store to another
    address; nothing is checked. *)
Definition mem : Type := Z -> R.

(** State threaded through a call: the buffer and the interpreter's error
    indicator. *)
Record state : Type := mkState {
  data : mem;
  exc_indicator : option exc
}.

(** Result of a call. *)
Record result : Type := mkResult {
  ret : retval;
  final : state
}.

Definition PyErr_SetString (e : exc) (s : state) : state :=
  mkState (data s) (Some e).

Definition PyArray_Check (o : PyObject) : bool :=
  match o with PyArray _ => true | _ => false end.

Definition PyList_Check (o : PyObject) : bool :=
  match o with PyList _ => true | _ => false end.

Definition PyTuple_Check (o : PyObject) : bool :=
  match o with PyTuple _ => true | _ => false end.

Definition PyTuple_Size (o : PyObject) : Z :=
  match o with PyTuple items => Z.of_nat (List.length items) | _ => (-1)%Z end.

Definition PyTuple_GetItem (o : PyObject) (k : nat) : PyObject :=
  match o with PyTuple items => nth k items PyNone | _ => PyNone end.

Definition PyList_items (o : PyObject) : list PyObject :=
  match o with PyList items => items | _ => [] end.

(** Conversion of an object to a C double, as [PyFloat_AsDouble] and the
    format unit [d] do it: the value of a float; the value of an integer
    when it is below 2^1024 - 2^970 in absolute value, [OverflowError]
    above; [TypeError] for any other object. *)
Definition long_fits_double (z : Z) : bool :=
  (Z.abs z <? 2 ^ 1024 - 2 ^ 970)%Z.

Definition double_of (o : PyObject) : exc + R :=
  match o with
  | PyFloat r => inr r
  | PyLong z => if long_fits_double z then inr (IZR z) else inl OverflowError
  | _ => inl TypeError
  end.

Definition is_number (o : PyObject) : bool :=
  match double_of o with inr _ => true | inl _ => false end.

(** [PyFloat_AsDouble]: on failure it returns -1.0 and sets the error. *)
Definition as_double (o : PyObject) : R :=
  match double_of o with inr r => r | inl _ => -1 end.

Definition PyFloat_AsDouble (o : PyObject) (s : state) : R * state :=
  (as_double o,
   match double_of o with inr _ => s | inl e => PyErr_SetString e s end).

Definition npy_type_eqb (a b : npy_type) : bool :=
  match a, b with
  | NPY_DOUBLE, NPY_DOUBLE | NPY_FLOAT, NPY_FLOAT | NPY_LONG, NPY_LONG => true
  | _, _ => false
  end.

(** [npy_intp / sizeof(double)]: the dividend is converted to the unsigned
    64-bit type of [sizeof] before the division. *)
Definition div_sizeof_double (stride : Z) : Z :=
  ((stride mod 2 ^ 64) / 8)%Z.

(** The header behind a [PyArrayObject*]; the fields of a non-array are never
    read by code that checks first. *)
Definition header (o : PyObject) : PyArrayObject :=
  match o with
  | PyArray a => a
  | _ => mkArray 0 NPY_LONG 0 0 0 0
  end.

Definition PyArray_SIZE (a : PyArrayObject) : Z := (dims0 a * dims1 a)%Z.

(** *** PyArg_ParseTuple

    The format units the modules use: [O] takes any object, [d] converts to
    a double, [s] takes a str without a null character, [i] takes an integer
    that fits an [int].
    A failing unit makes the parse fail with its error. *)

Definition parse_d (o : PyObject) : exc + R := double_of o.

Fixpoint has_nul (u : string) : bool :=
  match u with
  | EmptyString => false
  | String c u' => Ascii.eqb c Ascii.zero || has_nul u'
  end.

Definition parse_s (o : PyObject) : exc + string :=
  match o with
  | PyStr u => if has_nul u then inl ValueError else inr u
  | _ => inl TypeError
  end.

Definition parse_i (o : PyObject) : exc + Z :=
  match o with
  | PyLong z =>
      if ((CMath.INT_MIN <=? z) && (z <=? CMath.INT_MAX))%Z then inr z
      else inl OverflowError
  | _ => inl TypeError
  end.

Definition bind {A B : Type} (x : exc + A) (k : A -> exc + B) : exc + B :=
  match x with inl e => inl e | inr a => k a end.

End Py.

(** ** Loops over the grid *)

Module Loops.
Import Py.

(** The integers [lo], [lo+1], ..., [hi-1] of [for (k = lo; k < hi; k++)]. *)
Definition range (lo hi : Z) : list Z :=
  map (fun k => (lo + Z.of_nat k)%Z) (seq 0 (Z.to_nat (hi - lo))).

Definition for_loop {A : Type} (lo hi : Z) (body : A -> Z -> A) (a : A) : A :=
  fold_left body (range lo hi) a.

(** [data[k] += c] and [data[k] *= c]. *)
Definition store_add (m : mem) (k : Z) (c : R) : mem :=
  fun k' => if Z.eq_dec k' k then m k' + c else m k'.

Definition store_mul (m : mem) (k : Z) (c : R) : mem :=
  fun k' => if Z.eq_dec k' k then m k' * c else m k'.

(** The nested loop shared by the three updaters:
<<
    for (int i = i_min; i < i_max; i++)
      for (int j = j_min; j < j_max; j++) {
        ... continue; ...            (conc i j = None)
        data[off i j] += concentration;   (conc i j = Some concentration)
      }
>> *)
Definition cell_body (off : Z -> Z -> Z) (conc : Z -> Z -> option R)
  (i : Z) (m : mem) (j : Z) : mem :=
  match conc i j with
  | None => m
  | Some c => store_add m (off i j) c
  end.

Definition accumulate (off : Z -> Z -> Z) (conc : Z -> Z -> option R)
  (i_min i_max j_min j_max : Z) (m : mem) : mem :=
  for_loop i_min i_max
    (fun m i => for_loop j_min j_max (cell_body off conc i) m) m.

End Loops.

(** ** cs_module.c *)

Module CsModule.
Import CMath Py Loops.

(** [calculate_dispersion_coefficients]: the pair (sigma_y, sigma_z) written
    through the two out-pointers.  [strcmp(s, "A") == 0] is string equality. *)
Definition calculate_dispersion_coefficients (stability_class : string)
  (distance : R) : R * R :=
  let '(a, b) :=
    if String.eqb stability_class "A" then (0.22, 0.20)
    else if String.eqb stability_class "B" then (0.16, 0.12)
    else if String.eqb stability_class "C" then (0.11, 0.08)
    else if String.eqb stability_class "D" then (0.08, 0.06)
    else if String.eqb stability_class "E" then (0.06, 0.03)
    else if String.eqb stability_class "F" then (0.04, 0.016)
    else (0.10, 0.05) in
  (a * distance * pow (1 + 0.0001 * distance) (-0.5),
   b * distance * pow (1 + 0.0001 * distance) (-0.5)).

Definition calculate_emission_rate (vehicle_speed emission_factor : R) : R :=
  let base_emission := 0.1 in
  let speed_factor :=
    if Rgt_dec vehicle_speed 20 then 1 + 0.05 * (vehicle_speed - 20) else 1.0 in
  base_emission * speed_factor * emission_factor.

Definition calculate_plume_rise (vehicle_speed : R) : R :=
  if Rgt_dec (vehicle_speed * 0.15 + 0.5) 2.0
  then vehicle_speed * 0.15 + 0.5 else 2.0.

(** Lines 154-157 (and 278-281): the angle between the wind and the
    direction to the receptor. *)
Definition angle_diff (dy dx wind_direction : R) : R :=
  let two_pi := 2.0 * M_PI in
  let wind_dir_to_rec := atan2 dy dx in
  let angle_diff := fabs (wind_dir_to_rec - wind_direction) in
  if Rgt_dec angle_diff M_PI then two_pi - angle_diff else angle_diff.

(** Lines 162-164: the coefficients [update_pollution] computes in line. *)
Definition inline_sigmas (distance : R) : R * R :=
  let distance_factor := pow (1 + 0.0001 * distance) (-0.5) in
  (0.1 * distance * distance_factor, 0.05 * distance * distance_factor).

(** Centre of the cell (i,j) relative to the source, lines 137-142. *)
Definition offset_to_receptor (x y x_min x_max y_min y_max : R)
  (grid_resolution i j : Z) : R * R :=
  let cell_width := (x_max - x_min) / IZR grid_resolution in
  let cell_height := (y_max - y_min) / IZR grid_resolution in
  let receptor_x := x_min + (IZR j + 0.5) * cell_width in
  let receptor_y := y_min + (IZR i + 0.5) * cell_height in
  (receptor_x - x, receptor_y - y).

(** Body of the loop of [update_pollution], lines 136-170: [None] is
    [continue], [Some c] the concentration added to the cell. *)
Definition concentration (x y emission_rate plume_height wind_speed
  wind_direction x_min x_max y_min y_max : R) (grid_resolution : Z)
  (i j : Z) : option R :=
  let two_pi := 2.0 * M_PI in
  let emission_factor := emission_rate / (two_pi * wind_speed) in
  let '(dx, dy) :=
    offset_to_receptor x y x_min x_max y_min y_max grid_resolution i j in
  let distance_squared := dx * dx + dy * dy in
  if Rlt_dec distance_squared 1.0 then None else
  let distance := sqrt distance_squared in
  if Rgt_dec distance 300.0 then None else
  let angle_diff := angle_diff dy dx wind_direction in
  let '(sigma_y, sigma_z) := inline_sigmas distance in
  let lateral_dispersion := exp (-0.5 * pow (angle_diff / sigma_y) 2) in
  let vertical_dispersion :=
    exp (-0.5 * pow (plume_height / sigma_z) 2) * 2.0 in
  Some (emission_factor * lateral_dispersion * vertical_dispersion
        / (sigma_y * sigma_z)).

(** [data[i * strides[0] + j * strides[1]]], with the strides in elements. *)
Definition cell_index (a : PyArrayObject) (i j : Z) : Z :=
  let strides0 := div_sizeof_double (PyArray_STRIDE0 a) in
  let strides1 := div_sizeof_double (PyArray_STRIDE1 a) in
  (i * strides0 + j * strides1)%Z.

(** The validation of the grid object, lines 107 and 210. *)
Definition grid_is_2d_double (grid : PyObject) : bool :=
  PyArray_Check grid
  && npy_type_eqb (PyArray_TYPE (header grid)) NPY_DOUBLE
  && (PyArray_NDIM (header grid) =? 2)%Z.

(** [update_pollution], from after [PyArg_ParseTuple]. *)
Definition update_pollution (grid : PyObject) (i_min i_max j_min j_max : Z)
  (x y emission_rate plume_height wind_speed wind_direction
   x_min x_max y_min y_max : R) (grid_resolution : Z) (s : state) : result :=
  if negb (grid_is_2d_double grid) then
    mkResult NULL (PyErr_SetString TypeError s)
  else
  let a := header grid in
  if (i_min <? 0)%Z || (i_max >? dims0 a)%Z
     || (j_min <? 0)%Z || (j_max >? dims1 a)%Z then
    mkResult NULL (PyErr_SetString IndexError s)
  else
  mkResult Py_None
    (mkState
       (accumulate (cell_index a)
          (concentration x y emission_rate plume_height wind_speed
             wind_direction x_min x_max y_min y_max grid_resolution)
          i_min i_max j_min j_max (data s))
       (exc_indicator s)).

(** The global decay, lines 222-226. *)
Definition decay (size : Z) (m : mem) : mem :=
  for_loop 0 size (fun m i => store_mul m i 0.99) m.

(** The window of a vehicle, lines 255-258. *)
Definition window (x y x_min x_max y_min y_max : R)
  (grid_resolution : Z) (a : PyArrayObject) : Z * Z * Z * Z :=
  let i_min := int_of_double
    (fmax 0.0 ((y - y_min - 100.0) / (y_max - y_min) * IZR grid_resolution)) in
  let i_max := int_of_double
    (fmin (IZR (dims0 a))
       ((y - y_min + 100.0) / (y_max - y_min) * IZR grid_resolution)) in
  let j_min := int_of_double
    (fmax 0.0 ((x - x_min - 100.0) / (x_max - x_min) * IZR grid_resolution)) in
  let j_max := int_of_double
    (fmin (IZR (dims1 a))
       ((x - x_min + 100.0) / (x_max - x_min) * IZR grid_resolution)) in
  (i_min, i_max, j_min, j_max).

(** Body of the inner loop of [update_pollution_multiple], lines 267-291. *)
Definition concentration_multiple (stability_class : string)
  (x y emission_rate plume_height wind_speed wind_direction
   x_min x_max y_min y_max : R) (grid_resolution : Z)
  (i j : Z) : option R :=
  let two_pi := 2.0 * M_PI in
  let emission_factor_value := emission_rate / (two_pi * wind_speed) in
  let '(dx, dy) :=
    offset_to_receptor x y x_min x_max y_min y_max grid_resolution i j in
  let distance_squared := dx * dx + dy * dy in
  if Rlt_dec distance_squared 1.0 then None else
  let distance := sqrt distance_squared in
  if Rgt_dec distance 300.0 then None else
  let angle_diff := angle_diff dy dx wind_direction in
  let '(sigma_y, sigma_z) :=
    calculate_dispersion_coefficients stability_class distance in
  let lateral_dispersion := exp (-0.5 * pow (angle_diff / sigma_y) 2) in
  let vertical_dispersion :=
    exp (-0.5 * pow (plume_height / sigma_z) 2) * 2.0 in
  Some (emission_factor_value * lateral_dispersion * vertical_dispersion
        / (sigma_y * sigma_z)).

(** The vehicle read from a 3-tuple, lines 246-248.  The error indicator
    [PyFloat_AsDouble] may set is not looked at. *)
Definition read_vehicle (vehicle_tuple : PyObject) (s : state)
  : R * R * R * state :=
  let '(x, s) := PyFloat_AsDouble (PyTuple_GetItem vehicle_tuple 0) s in
  let '(y, s) := PyFloat_AsDouble (PyTuple_GetItem vehicle_tuple 1) s in
  let '(vehicle_speed, s) :=
    PyFloat_AsDouble (PyTuple_GetItem vehicle_tuple 2) s in
  (x, y, vehicle_speed, s).

(** One iteration of the loop over the vehicles, lines 246-295, for an
    entry that passed the check of line 241. *)
Definition update_vehicle (a : PyArrayObject) (wind_speed wind_direction
  emission_factor : R) (stability_class : string)
  (x_min x_max y_min y_max : R) (grid_resolution : Z)
  (vehicle_tuple : PyObject) (s : state) : state :=
  let '(x, y, vehicle_speed, s) := read_vehicle vehicle_tuple s in
  let emission_rate := calculate_emission_rate vehicle_speed emission_factor in
  let plume_height := calculate_plume_rise vehicle_speed in
  let '(i_min, i_max, j_min, j_max) :=
    window x y x_min x_max y_min y_max grid_resolution a in
  mkState
    (accumulate (cell_index a)
       (concentration_multiple stability_class x y emission_rate plume_height
          wind_speed wind_direction x_min x_max y_min y_max grid_resolution)
       i_min i_max j_min j_max (data s))
    (exc_indicator s).

(** The check of line 241. *)
Definition is_3tuple (o : PyObject) : bool :=
  PyTuple_Check o && (PyTuple_Size o =? 3)%Z.

(** The loop over the vehicles, lines 239-296, and the final
    [Py_RETURN_NONE]. *)
Fixpoint vehicles_loop (a : PyArrayObject) (wind_speed wind_direction
  emission_factor : R) (stability_class : string)
  (x_min x_max y_min y_max : R) (grid_resolution : Z)
  (vehicles : list PyObject) (s : state) : result :=
  match vehicles with
  | [] => mkResult Py_None s
  | vehicle_tuple :: rest =>
      if negb (is_3tuple vehicle_tuple) then
        mkResult NULL (PyErr_SetString ValueError s)
      else
        vehicles_loop a wind_speed wind_direction emission_factor
          stability_class x_min x_max y_min y_max grid_resolution rest
          (update_vehicle a wind_speed wind_direction emission_factor
             stability_class x_min x_max y_min y_max grid_resolution
             vehicle_tuple s)
  end.

(** The body of [update_pollution_multiple], lines 209-298, on the values
    of its local variables after [PyArg_ParseTuple]. *)
Definition update_pollution_multiple_body (grid vehicle_list : PyObject)
  (wind_speed wind_direction emission_factor : R) (stability_class : string)
  (x_min x_max y_min y_max : R) (grid_resolution : Z) (s : state) : result :=
  if negb (grid_is_2d_double grid) then
    mkResult NULL (PyErr_SetString TypeError s)
  else if negb (PyList_Check vehicle_list) then
    mkResult NULL (PyErr_SetString TypeError s)
  else
  let a := header grid in
  let s := mkState (decay (PyArray_SIZE a) (data s)) (exc_indicator s) in
  vehicles_loop a wind_speed wind_direction emission_factor stability_class
    x_min x_max y_min y_max grid_resolution (PyList_items vehicle_list) s.

(** [PyArg_ParseTuple(args, "OOdddsdddi", &grid, &vehicle_list, &wind_speed,
    &wind_direction, &emission_factor, &stability_class, &x_min, &x_max,
    &y_min, &y_max, &grid_resolution)], line 197: the format has ten units
    for the eleven pointers.  It accepts exactly ten arguments; the ninth
    double goes to [y_min], and the last unit, [i], stores an int through
    [&y_max]. *)
Definition parse_OOdddsdddi (args : list PyObject)
  : exc + (PyObject * PyObject * R * R * R * string * R * R * R * Z) :=
  match args with
  | [grid; vehicle_list; o3; o4; o5; o6; o7; o8; o9; o10] =>
      bind (parse_d o3) (fun wind_speed =>
      bind (parse_d o4) (fun wind_direction =>
      bind (parse_d o5) (fun emission_factor =>
      bind (parse_s o6) (fun stability_class =>
      bind (parse_d o7) (fun x_min =>
      bind (parse_d o8) (fun x_max =>
      bind (parse_d o9) (fun y_min =>
      bind (parse_i o10) (fun n =>
      inr (grid, vehicle_list, wind_speed, wind_direction, emission_factor,
           stability_class, x_min, x_max, y_min, n)))))))))
  | _ => inl TypeError
  end.

(** [update_pollution_multiple] on the argument tuple.  After a successful
    parse [y_max] is a double whose low four bytes hold the parsed int and
    whose high four bytes were never written, and [grid_resolution] was
    never written: both are whatever the stack held, and are taken as the
    parameters [y_max] and [grid_resolution].  (With the int 0 parsed and
    0x40240000 left in the high bytes, [y_max] is 10.) *)
Definition update_pollution_multiple (args : list PyObject)
  (y_max : R) (grid_resolution : Z) (s : state) : result :=
  match parse_OOdddsdddi args with
  | inl e => mkResult NULL (PyErr_SetString e s)
  | inr (grid, vehicle_list, wind_speed, wind_direction, emission_factor,
         stability_class, x_min, x_max, y_min, _) =>
      update_pollution_multiple_body grid vehicle_list wind_speed
        wind_direction emission_factor stability_class
        x_min x_max y_min y_max grid_resolution s
  end.

End CsModule.

(** ** spam_module.c *)

Module Spam.
Import CMath Py Loops.

(** Lines 66-69. *)
Definition angle_diff (dy dx wind_direction : R) : R :=
  let wind_dir_to_rec := atan2 dy dx in
  let angle_diff := fabs (wind_dir_to_rec - wind_direction) in
  if Rgt_dec angle_diff M_PI then 2 * M_PI - angle_diff else angle_diff.

(** Body of the loop, lines 58-77: [None] is [continue]. *)
Definition concentration (x y emission_rate plume_height wind_speed
  wind_direction x_min x_max y_min y_max : R) (grid_resolution : Z)
  (i j : Z) : option R :=
  let cell_width := (x_max - x_min) / IZR grid_resolution in
  let cell_height := (y_max - y_min) / IZR grid_resolution in
  let a := 0.10 in
  let b := 0.05 in
  let receptor_x := x_min + (IZR j + 0.5) * cell_width in
  let receptor_y := y_min + (IZR i + 0.5) * cell_height in
  let dx := receptor_x - x in
  let dy := receptor_y - y in
  let distance := sqrt (dx * dx + dy * dy) in
  if Rlt_dec distance 1.0 then None else
  let angle_diff := angle_diff dy dx wind_direction in
  let sigma_y := a * distance * pow (1 + 0.0001 * distance) (-0.5) in
  let sigma_z := b * distance * pow (1 + 0.0001 * distance) (-0.5) in
  Some ((emission_rate / (2 * M_PI * wind_speed * sigma_y * sigma_z))
        * exp (-0.5 * pow (angle_diff / sigma_y) 2)
        * (exp (-0.5 * pow (plume_height / sigma_z) 2)
           + exp (-0.5 * pow (plume_height / sigma_z) 2))).

(** [data[i * grid_resolution + j]]. *)
Definition cell_index (grid_resolution : Z) (i j : Z) : Z :=
  (i * grid_resolution + j)%Z.

(** [update_pollution], from after [PyArg_ParseTuple]: nothing is checked,
    the grid object is only used for its data pointer. *)
Definition update_pollution (grid : PyObject) (i_min i_max j_min j_max : Z)
  (x y emission_rate plume_height wind_speed wind_direction
   x_min x_max y_min y_max : R) (grid_resolution : Z) (s : state) : result :=
  mkResult Py_None
    (mkState
       (accumulate (cell_index grid_resolution)
          (concentration x y emission_rate plume_height wind_speed
             wind_direction x_min x_max y_min y_max grid_resolution)
          i_min i_max j_min j_max (data s))
       (exc_indicator s)).

End Spam.

(** ** Vocabulary of the statements *)

Module Props.
Import CMath Py Loops.

(** The value of a cell after [+=] of a concentration, or after [continue]. *)
Definition bump (c : option R) (v : R) : R :=
  match c with None => v | Some c => v + c end.

(** Distance from the source to the centre of the cell (i,j). *)
Definition distance_to_cell (x y x_min x_max y_min y_max : R)
  (grid_resolution i j : Z) : R :=
  let '(dx, dy) :=
    CsModule.offset_to_receptor x y x_min x_max y_min y_max
      grid_resolution i j in
  sqrt (dx * dx + dy * dy).

(** Angle between the wind and the direction from the source to the centre
    of the cell (i,j), as the loops compute it. *)
Definition angle_to_cell (x y x_min x_max y_min y_max : R)
  (grid_resolution i j : Z) (wind_direction : R) : R :=
  let '(dx, dy) :=
    CsModule.offset_to_receptor x y x_min x_max y_min y_max
      grid_resolution i j in
  CsModule.angle_diff dy dx wind_direction.

Definition in_bounds (a : PyArrayObject) (i j : Z) : Prop :=
  (0 <= i < dims0 a)%Z /\ (0 <= j < dims1 a)%Z.

Definition in_window (w : Z * Z * Z * Z) (i j : Z) : Prop :=
  let '(i_min, i_max, j_min, j_max) := w in
  (i_min <= i < i_max)%Z /\ (j_min <= j < j_max)%Z.

(** Distinct cells of the array live at distinct addresses. *)
Definition no_overlap (a : PyArrayObject) : Prop :=
  forall i j i' j', in_bounds a i j -> in_bounds a i' j' ->
    CsModule.cell_index a i j = CsModule.cell_index a i' j' ->
    i = i' /\ j = j'.

(** A dense array: its cells are exactly the first [PyArray_SIZE] elements
    of the buffer. *)
Definition dense (a : PyArrayObject) : Prop :=
  no_overlap a /\
  forall i j, in_bounds a i j ->
    (0 <= CsModule.cell_index a i j < PyArray_SIZE a)%Z.

(** Row-major layout of doubles. *)
Definition c_contiguous (a : PyArrayObject) : Prop :=
  (0 <= dims0 a)%Z /\ (0 <= dims1 a < 2 ^ 60)%Z /\
  PyArray_STRIDE0 a = (8 * dims1 a)%Z /\ PyArray_STRIDE1 a = 8%Z.

(** The part of a concentration that does not depend on the emission rate
    or the wind speed: lateral times vertical dispersion over
    sigma_y * sigma_z, for the linear coefficients a and b. *)
Definition kernel (a b distance angle plume_height : R) : R :=
  let k := pow (1 + 0.0001 * distance) (-0.5) in
  let sigma_y := a * distance * k in
  let sigma_z := b * distance * k in
  exp (-0.5 * pow (angle / sigma_y) 2)
  * (exp (-0.5 * pow (plume_height / sigma_z) 2) * 2)
  / (sigma_y * sigma_z).

(** A class string outside the table. *)
Definition unrecognized (stability_class : string) : Prop :=
  ~ In stability_class ["A"; "B"; "C"; "D"; "E"; "F"]%string.

End Props.

(** ** Facts about the numeric functions *)

Import CMath Py Loops Props.

Lemma Int_part_IZR (z : Z) : Int_part (IZR z) = z.
Proof. symmetry. apply Int_part_spec. lra. Qed.


Lemma half_not_integral (z : Z) : IZR z <> -0.5.
Proof.
  intro H. assert (H2 : IZR (2 * z) = IZR (-1)) by (rewrite mult_IZR; lra).
  apply eq_IZR in H2. lia.
Qed.

Lemma pow_neg_half (x : R) : pow x (-0.5) = Rpower x (-0.5).
Proof.
  unfold pow. destruct (Req_dec_T _ _) as [H|_]; [|reflexivity].
  exfalso. exact (half_not_integral _ H).
Qed.

Lemma pow_neg_half_pos (x : R) : 0 < pow x (-0.5).
Proof. rewrite pow_neg_half. unfold Rpower. apply exp_pos. Qed.

Lemma atan2_bounds (y x : R) : - PI < atan2 y x <= PI.
Proof.
  pose proof PI_RGT_0 as Hpi.
  pose proof (atan_bound (y / x)) as Hb.
  unfold atan2.
  destruct (Rlt_dec 0 x) as [Hx|Hx]; [lra|].
  destruct (Rlt_dec x 0) as [Hx'|Hx'].
  - destruct (Rle_dec 0 y) as [Hy|Hy].
    + assert (atan (y / x) <= 0).
      { rewrite <- atan_0. destruct (Req_dec y 0) as [->|Hy0].
        - unfold Rdiv. rewrite Rmult_0_l. lra.
        - left. apply atan_increasing. apply Rmult_pos_neg; [lra|].
          apply Rinv_lt_0_compat; lra. }
      lra.
    + assert (0 < atan (y / x)).
      { rewrite <- atan_0. apply atan_increasing.
        apply Rmult_neg_neg; [lra|]. apply Rinv_lt_0_compat; lra. }
      lra.
  - destruct (Rlt_dec 0 y); [lra|]. destruct (Rlt_dec y 0); lra.
Qed.

(** ** Facts about the loops *)

Lemma range_In (lo hi k : Z) : In k (range lo hi) <-> (lo <= k < hi)%Z.
Proof.
  unfold range. rewrite in_map_iff. split.
  - intros [n [<- Hn]]. apply in_seq in Hn. lia.
  - intros H. exists (Z.to_nat (k - lo)). split; [lia|].
    apply in_seq. lia.
Qed.

Lemma range_NoDup (lo hi : Z) : NoDup (range lo hi).
Proof.
  unfold range. apply NoDup_map_NoDup_ForallPairs.
  - intros a b _ _ H. lia.
  - apply seq_NoDup.
Qed.

Section Accumulate.
Variable off : Z -> Z -> Z.
Variable conc : Z -> Z -> option R.

Lemma cell_body_other (i j k : Z) (m : mem) :
  conc i j = None \/ off i j <> k -> cell_body off conc i m j k = m k.
Proof.
  unfold cell_body, store_add. intros [H|H].
  - now rewrite H.
  - destruct (conc i j); [|reflexivity].
    destruct (Z.eq_dec k (off i j)); [congruence|reflexivity].
Qed.

Lemma cell_body_same (i j : Z) (m : mem) :
  cell_body off conc i m j (off i j) = bump (conc i j) (m (off i j)).
Proof.
  unfold cell_body, store_add, bump. destruct (conc i j); [|reflexivity].
  destruct (Z.eq_dec (off i j) (off i j)); [reflexivity|congruence].
Qed.

Lemma row_frame (i k : Z) (cols : list Z) (m : mem) :
  (forall j, In j cols -> conc i j = None \/ off i j <> k) ->
  fold_left (cell_body off conc i) cols m k = m k.
Proof.
  revert m. induction cols as [|j cols IH]; intros m H; simpl; [reflexivity|].
  rewrite IH by (intros; apply H; now right).
  apply cell_body_other, H. now left.
Qed.

Lemma row_at (i j0 : Z) (cols : list Z) (m : mem) :
  NoDup cols -> In j0 cols ->
  (forall j, In j cols -> j <> j0 -> conc i j = None \/ off i j <> off i j0) ->
  fold_left (cell_body off conc i) cols m (off i j0)
  = bump (conc i j0) (m (off i j0)).
Proof.
  revert m. induction cols as [|j cols IH]; intros m Hnd Hin H; simpl; [easy|].
  inversion Hnd as [|? ? Hnotin Hnd']; subst.
  destruct Hin as [->|Hin].
  - rewrite row_frame.
    + apply cell_body_same.
    + intros j Hj. apply H; [now right|]. intros ->. contradiction.
  - rewrite IH; auto.
    + f_equal. apply cell_body_other. apply H; [now left|].
      intros ->. contradiction.
    + intros j' Hj' Hne. apply H; [now right|assumption].
Qed.

Lemma rows_frame (k : Z) (rows cols : list Z) (m : mem) :
  (forall i j, In i rows -> In j cols -> conc i j = None \/ off i j <> k) ->
  fold_left (fun m i => fold_left (cell_body off conc i) cols m) rows m k = m k.
Proof.
  revert m. induction rows as [|i rows IH]; intros m H; simpl; [reflexivity|].
  rewrite IH by (intros; apply H; auto; now right).
  apply row_frame. intros j Hj. apply H; auto. now left.
Qed.

Lemma rows_at (i0 j0 : Z) (rows cols : list Z) (m : mem) :
  NoDup rows -> NoDup cols -> In i0 rows -> In j0 cols ->
  (forall i j, In i rows -> In j cols -> (i, j) <> (i0, j0) ->
     conc i j = None \/ off i j <> off i0 j0) ->
  fold_left (fun m i => fold_left (cell_body off conc i) cols m) rows m
    (off i0 j0)
  = bump (conc i0 j0) (m (off i0 j0)).
Proof.
  revert m. induction rows as [|i rows IH]; intros m Hnd Hndj Hin Hj0 H; simpl;
    [easy|].
  inversion Hnd as [|? ? Hnotin Hnd']; subst.
  destruct Hin as [->|Hin].
  - rewrite rows_frame.
    + apply row_at; auto. intros j Hj Hne. apply H; auto; [now left|].
      congruence.
    + intros i j Hi Hj. apply H; auto; [now right|].
      intros [= -> ->]. contradiction.
  - rewrite IH; auto.
    + f_equal. apply row_frame. intros j Hj. apply H; auto; [now left|].
      intros [= -> ->]. contradiction.
    + intros i' j' Hi' Hj' Hne. apply H; auto. now right.
Qed.

Lemma accumulate_frame (i_min i_max j_min j_max k : Z) (m : mem) :
  (forall i j, (i_min <= i < i_max)%Z -> (j_min <= j < j_max)%Z ->
     conc i j = None \/ off i j <> k) ->
  accumulate off conc i_min i_max j_min j_max m k = m k.
Proof.
  intros H. unfold accumulate, for_loop. apply rows_frame.
  intros i j Hi Hj. apply H; now apply range_In.
Qed.

Lemma accumulate_at (i_min i_max j_min j_max i0 j0 : Z) (m : mem) :
  (i_min <= i0 < i_max)%Z -> (j_min <= j0 < j_max)%Z ->
  (forall i j, (i_min <= i < i_max)%Z -> (j_min <= j < j_max)%Z ->
     (i, j) <> (i0, j0) -> conc i j = None \/ off i j <> off i0 j0) ->
  accumulate off conc i_min i_max j_min j_max m (off i0 j0)
  = bump (conc i0 j0) (m (off i0 j0)).
Proof.
  intros Hi Hj H. unfold accumulate, for_loop.
  apply rows_at; try apply range_NoDup; try now apply range_In.
  intros i j Hi' Hj'. apply H; now apply range_In.
Qed.

End Accumulate.

(** ** The dispersion coefficients (C1, C5) *)

Lemma coefficients_unrecognized (stability_class : string) (distance : R) :
  unrecognized stability_class ->
  CsModule.calculate_dispersion_coefficients stability_class distance
  = (0.10 * distance * pow (1 + 0.0001 * distance) (-0.5),
     0.05 * distance * pow (1 + 0.0001 * distance) (-0.5)).
Proof.
  intros H. unfold CsModule.calculate_dispersion_coefficients.
  repeat match goal with
  | |- context [String.eqb ?s ?t] =>
      destruct (String.eqb_spec s t) as [->|_];
      [exfalso; apply H; simpl; tauto|]
  end.
  reflexivity.
Qed.

(** C1, evaluated at the failing input: at distance 100 the branch of class
    "D" uses a = 0.08 and b = 0.06, the fallback branch (here for "X") uses
    a = 0.10 and b = 0.05, and the two results differ. *)
Theorem class_D_is_not_the_fallback :
  let k := pow (1 + 0.0001 * 100) (-0.5) in
  CsModule.calculate_dispersion_coefficients "D" 100
    = (0.08 * 100 * k, 0.06 * 100 * k)
  /\ CsModule.calculate_dispersion_coefficients "X" 100
    = (0.10 * 100 * k, 0.05 * 100 * k)
  /\ CsModule.calculate_dispersion_coefficients "D" 100
    <> CsModule.calculate_dispersion_coefficients "X" 100.
Proof.
  intros k. assert (Hk : 0 < k) by apply pow_neg_half_pos.
  assert (HD : CsModule.calculate_dispersion_coefficients "D" 100
               = (0.08 * 100 * k, 0.06 * 100 * k)) by reflexivity.
  assert (HX : CsModule.calculate_dispersion_coefficients "X" 100
               = (0.10 * 100 * k, 0.05 * 100 * k)) by reflexivity.
  repeat split; try assumption.
  rewrite HD, HX. intros [= H1 H2]. lra.
Qed.

(** ** The concentration formulas *)

Lemma kernel_pos (a b distance angle plume_height : R) :
  0 < a -> 0 < b -> 0 < distance ->
  0 < kernel a b distance angle plume_height.
Proof.
  intros Ha Hb Hd. unfold kernel.
  pose proof (pow_neg_half_pos (1 + 0.0001 * distance)) as Hk.
  set (k := pow (1 + 0.0001 * distance) (-0.5)) in *.
  assert (Hy : 0 < a * distance * k) by (repeat apply Rmult_lt_0_compat; lra).
  assert (Hz : 0 < b * distance * k) by (repeat apply Rmult_lt_0_compat; lra).
  apply Rdiv_lt_0_compat; [|now apply Rmult_lt_0_compat].
  apply Rmult_lt_0_compat; [apply exp_pos|].
  apply Rmult_lt_0_compat; [apply exp_pos|lra].
Qed.

Lemma sqrt_lt_1 (v : R) : 0 <= v -> (sqrt v < 1 <-> v < 1).
Proof.
  intros Hv. rewrite <- sqrt_1 at 1. split; intros H.
  - apply sqrt_lt_0_alt in H. exact H.
  - apply sqrt_lt_1_alt. lra.
Qed.

Lemma sum_squares_nonneg (dx dy : R) : 0 <= dx * dx + dy * dy.
Proof. nra. Qed.

Lemma angle_diff_agree (dy dx wind_direction : R) :
  Spam.angle_diff dy dx wind_direction
  = CsModule.angle_diff dy dx wind_direction.
Proof.
  unfold Spam.angle_diff, CsModule.angle_diff.
  destruct (Rgt_dec _ _); [lra|reflexivity].
Qed.

(** Inside the band the loop body of [CsModule.update_pollution] adds
    emission_rate / (2 pi wind_speed) times the kernel of a = 0.1, b = 0.05. *)
Lemma cs_concentration_in_band (x y emission_rate plume_height wind_speed
  wind_direction x_min x_max y_min y_max : R) (grid_resolution i j : Z) :
  1 <= distance_to_cell x y x_min x_max y_min y_max grid_resolution i j
    <= 300 ->
  CsModule.concentration x y emission_rate plume_height wind_speed
    wind_direction x_min x_max y_min y_max grid_resolution i j
  = Some (emission_rate / (2 * PI * wind_speed)
          * kernel 0.1 0.05
              (distance_to_cell x y x_min x_max y_min y_max
                 grid_resolution i j)
              (angle_to_cell x y x_min x_max y_min y_max
                 grid_resolution i j wind_direction)
              plume_height).
Proof.
  unfold distance_to_cell, angle_to_cell, CsModule.concentration.
  destruct (CsModule.offset_to_receptor _ _ _ _ _ _ _ _ _) as [dx dy].
  cbv zeta. intros [Hlo Hhi].
  pose proof (sum_squares_nonneg dx dy) as Hnn.
  destruct (Rlt_dec _ _) as [H|_].
  { assert (sqrt (dx * dx + dy * dy) < 1) by (apply sqrt_lt_1; lra). lra. }
  destruct (Rgt_dec _ _) as [H|_]; [lra|].
  unfold CsModule.inline_sigmas, kernel, M_PI. cbv zeta.
  f_equal. unfold Rdiv. replace 2.0 with 2 by lra. ring.
Qed.

(** Below distance 1 and above distance 300 the body is [continue]. *)
Lemma cs_concentration_cut (x y emission_rate plume_height wind_speed
  wind_direction x_min x_max y_min y_max : R) (grid_resolution i j : Z) :
  distance_to_cell x y x_min x_max y_min y_max grid_resolution i j < 1
  \/ 300 < distance_to_cell x y x_min x_max y_min y_max grid_resolution i j ->
  CsModule.concentration x y emission_rate plume_height wind_speed
    wind_direction x_min x_max y_min y_max grid_resolution i j = None.
Proof.
  unfold distance_to_cell, CsModule.concentration.
  destruct (CsModule.offset_to_receptor _ _ _ _ _ _ _ _ _) as [dx dy].
  cbv zeta. intros Hd.
  pose proof (sum_squares_nonneg dx dy) as Hnn.
  destruct (Rlt_dec _ _) as [H|H]; [reflexivity|].
  destruct (Rgt_dec _ _) as [H'|H']; [reflexivity|].
  exfalso. destruct Hd as [Hd|Hd]; [|lra].
  apply (proj1 (sqrt_lt_1 _ Hnn)) in Hd. lra.
Qed.

(** [Spam.update_pollution] has the near-field test only. *)
Lemma spam_concentration_from_1 (x y emission_rate plume_height wind_speed
  wind_direction x_min x_max y_min y_max : R) (grid_resolution i j : Z) :
  1 <= distance_to_cell x y x_min x_max y_min y_max grid_resolution i j ->
  Spam.concentration x y emission_rate plume_height wind_speed
    wind_direction x_min x_max y_min y_max grid_resolution i j
  = Some (emission_rate / (2 * PI * wind_speed)
          * kernel 0.1 0.05
              (distance_to_cell x y x_min x_max y_min y_max
                 grid_resolution i j)
              (angle_to_cell x y x_min x_max y_min y_max
                 grid_resolution i j wind_direction)
              plume_height).
Proof.
  unfold distance_to_cell, angle_to_cell, Spam.concentration,
    CsModule.offset_to_receptor.
  cbv zeta. intros Hlo.
  destruct (Rlt_dec _ _) as [H|_]; [lra|].
  rewrite angle_diff_agree. unfold kernel, M_PI. cbv zeta.
  f_equal. unfold Rdiv. rewrite !Rinv_mult.
  replace 0.10 with 0.1 by lra. ring.
Qed.


(** The body of the loop of [update_pollution_multiple], with the
    coefficients of the class. *)
Lemma multiple_concentration_default (stability_class : string)
  (x y emission_rate plume_height wind_speed
  wind_direction x_min x_max y_min y_max : R) (grid_resolution i j : Z) :
  unrecognized stability_class ->
  CsModule.concentration_multiple stability_class x y emission_rate
    plume_height wind_speed wind_direction x_min x_max y_min y_max
    grid_resolution i j
  = CsModule.concentration x y emission_rate plume_height wind_speed
      wind_direction x_min x_max y_min y_max grid_resolution i j.
Proof.
  intros Hc. unfold CsModule.concentration_multiple, CsModule.concentration.
  destruct (CsModule.offset_to_receptor _ _ _ _ _ _ _ _ _) as [dx dy].
  cbv zeta.
  destruct (Rlt_dec _ _); [reflexivity|].
  destruct (Rgt_dec _ _); [reflexivity|].
  rewrite (coefficients_unrecognized _ _ Hc).
  unfold CsModule.inline_sigmas. cbv zeta.
  replace 0.10 with 0.1 by lra. reflexivity.
Qed.

(** ** Array layout *)

Lemma div_sizeof_double_8n (n : Z) :
  (0 <= n < 2 ^ 60)%Z -> div_sizeof_double (8 * n) = n.
Proof.
  intros H. unfold div_sizeof_double.
  rewrite Z.mod_small by lia.
  rewrite Z.mul_comm. apply Z.div_mul. lia.
Qed.

Lemma c_contiguous_index (a : PyArrayObject) (i j : Z) :
  c_contiguous a -> CsModule.cell_index a i j = (i * dims1 a + j)%Z.
Proof.
  intros (H0 & H1 & Hs0 & Hs1). unfold CsModule.cell_index.
  rewrite Hs0, Hs1, div_sizeof_double_8n by lia.
  change 8%Z with (8 * 1)%Z. rewrite div_sizeof_double_8n by lia. lia.
Qed.

Lemma c_contiguous_dense (a : PyArrayObject) : c_contiguous a -> dense a.
Proof.
  intros Hc. split.
  - intros i j i' j' [Hi Hj] [Hi' Hj'].
    rewrite !c_contiguous_index by assumption. intros H.
    assert (i = i') by nia. subst. split; [reflexivity|lia].
  - intros i j [Hi Hj]. rewrite c_contiguous_index by assumption.
    unfold PyArray_SIZE. nia.
Qed.

(** ** [CsModule.update_pollution] on the grid *)

Section UpdatePollution.
Variable a : PyArrayObject.
Variables i_min i_max j_min j_max : Z.
Variables x y emission_rate plume_height wind_speed wind_direction : R.
Variables x_min x_max y_min y_max : R.
Variable grid_resolution : Z.
Variable s : state.

Hypothesis grid_ok : CsModule.grid_is_2d_double (PyArray a) = true.
Hypothesis window_ok :
  (0 <= i_min)%Z /\ (i_max <= dims0 a)%Z /\
  (0 <= j_min)%Z /\ (j_max <= dims1 a)%Z.

Let r : result :=
  CsModule.update_pollution (PyArray a) i_min i_max j_min j_max x y
    emission_rate plume_height wind_speed wind_direction
    x_min x_max y_min y_max grid_resolution s.

Let conc : Z -> Z -> option R :=
  CsModule.concentration x y emission_rate plume_height wind_speed
    wind_direction x_min x_max y_min y_max grid_resolution.

Lemma update_pollution_runs :
  r = mkResult Py_None
        (mkState
           (accumulate (CsModule.cell_index a) conc
              i_min i_max j_min j_max (data s))
           (exc_indicator s)).
Proof.
  unfold r, CsModule.update_pollution. rewrite grid_ok. simpl.
  destruct window_ok as (H1 & H2 & H3 & H4).
  replace (i_min <? 0)%Z with false by (symmetry; apply Z.ltb_ge; lia).
  replace (i_max >? dims0 a)%Z with false
    by (symmetry; rewrite Z.gtb_ltb; apply Z.ltb_ge; lia).
  replace (j_min <? 0)%Z with false by (symmetry; apply Z.ltb_ge; lia).
  replace (j_max >? dims1 a)%Z with false
    by (symmetry; rewrite Z.gtb_ltb; apply Z.ltb_ge; lia).
  reflexivity.
Qed.

(** A cell of the window holds its old value plus what the body added. *)
Lemma update_pollution_in_window (i j : Z) :
  no_overlap a ->
  in_window (i_min, i_max, j_min, j_max) i j ->
  data (final r) (CsModule.cell_index a i j)
  = bump (conc i j) (data s (CsModule.cell_index a i j)).
Proof.
  intros Hno [Hi Hj]. rewrite update_pollution_runs. simpl.
  destruct window_ok as (H1 & H2 & H3 & H4).
  apply accumulate_at; try assumption.
  intros i' j' Hi' Hj' Hne. right. intros Heq.
  apply Hno in Heq; [|split; lia|split; lia].
  destruct Heq; subst. contradiction.
Qed.

(** A cell of the array outside the window keeps its value. *)
Lemma update_pollution_off_window (i j : Z) :
  no_overlap a -> in_bounds a i j ->
  ~ in_window (i_min, i_max, j_min, j_max) i j ->
  data (final r) (CsModule.cell_index a i j)
  = data s (CsModule.cell_index a i j).
Proof.
  intros Hno Hb Hout. rewrite update_pollution_runs. simpl.
  destruct window_ok as (H1 & H2 & H3 & H4).
  apply accumulate_frame.
  intros i' j' Hi' Hj'. right. intros Heq.
  apply Hno in Heq; [|split; lia|assumption].
  destruct Heq; subst. apply Hout. split; assumption.
Qed.

End UpdatePollution.

(** ** [Spam.update_pollution] on the grid *)

Section SpamUpdatePollution.
Variable grid : PyObject.
Variables i_min i_max j_min j_max : Z.
Variables x y emission_rate plume_height wind_speed wind_direction : R.
Variables x_min x_max y_min y_max : R.
Variable grid_resolution : Z.
Variable s : state.

Hypothesis columns_ok : (0 <= j_min)%Z /\ (j_max <= grid_resolution)%Z.

Let r : result :=
  Spam.update_pollution grid i_min i_max j_min j_max x y
    emission_rate plume_height wind_speed wind_direction
    x_min x_max y_min y_max grid_resolution s.

Let conc : Z -> Z -> option R :=
  Spam.concentration x y emission_rate plume_height wind_speed
    wind_direction x_min x_max y_min y_max grid_resolution.

Lemma spam_index_inj (i j i' j' : Z) :
  (0 <= j < grid_resolution)%Z -> (0 <= j' < grid_resolution)%Z ->
  Spam.cell_index grid_resolution i j = Spam.cell_index grid_resolution i' j' ->
  i = i' /\ j = j'.
Proof.
  unfold Spam.cell_index. intros Hj Hj' H.
  assert (i = i') by nia. subst. split; [reflexivity|lia].
Qed.

Lemma spam_update_in_window (i j : Z) :
  in_window (i_min, i_max, j_min, j_max) i j ->
  data (final r) (Spam.cell_index grid_resolution i j)
  = bump (conc i j) (data s (Spam.cell_index grid_resolution i j)).
Proof.
  intros [Hi Hj]. unfold r, Spam.update_pollution. simpl.
  destruct columns_ok as [H1 H2].
  apply accumulate_at; try assumption.
  intros i' j' Hi' Hj' Hne. right. intros Heq.
  apply spam_index_inj in Heq; [|lia|lia].
  destruct Heq; subst. contradiction.
Qed.


End SpamUpdatePollution.

Lemma in_window_dec (w : Z * Z * Z * Z) (i j : Z) :
  in_window w i j \/ ~ in_window w i j.
Proof.
  destruct w as [[[i_min i_max] j_min] j_max]. unfold in_window.
  destruct (Z_le_dec i_min i), (Z_lt_dec i i_max),
    (Z_le_dec j_min j), (Z_lt_dec j j_max); try (right; lia).
  left. lia.
Qed.

Lemma sqrt_of_square (v w : R) : 0 <= w -> v = w * w -> sqrt v = w.
Proof. intros Hw ->. now apply sqrt_square. Qed.

(** ** The cutoffs (C2) *)

(** In [cs_module.c] both cutoffs hold: a cell of the array whose centre is
    nearer than 1 or farther than 300 keeps its value. *)
Lemma cs_update_pollution_cutoffs (a : PyArrayObject)
  (i_min i_max j_min j_max : Z)
  (x y emission_rate plume_height wind_speed wind_direction
   x_min x_max y_min y_max : R) (grid_resolution : Z) (s : state) (i j : Z) :
  CsModule.grid_is_2d_double (PyArray a) = true ->
  (0 <= i_min)%Z /\ (i_max <= dims0 a)%Z /\
  (0 <= j_min)%Z /\ (j_max <= dims1 a)%Z ->
  no_overlap a -> in_bounds a i j ->
  distance_to_cell x y x_min x_max y_min y_max grid_resolution i j < 1
  \/ 300 < distance_to_cell x y x_min x_max y_min y_max grid_resolution i j ->
  data (final (CsModule.update_pollution (PyArray a) i_min i_max j_min j_max
                 x y emission_rate plume_height wind_speed wind_direction
                 x_min x_max y_min y_max grid_resolution s))
    (CsModule.cell_index a i j)
  = data s (CsModule.cell_index a i j).
Proof.
  intros Hg Hw Hno Hb Hd.
  destruct (in_window_dec (i_min, i_max, j_min, j_max) i j) as [Hin|Hout].
  - rewrite update_pollution_in_window by assumption.
    rewrite cs_concentration_cut by assumption. reflexivity.
  - now apply update_pollution_off_window.
Qed.


(** C2, evaluated at the failing input: a 1 x 1 grid over [0,1000]^2, the
    source at (0,500), so the centre of the only cell is at distance 500.
    [Spam.update_pollution] raises the cell above its old value 0;
    [CsModule.update_pollution] leaves it at 0. *)
Theorem spam_updates_beyond_300 :
  let s0 := mkState (fun _ => 0) None in
  let grid := PyArray (mkArray 2 NPY_DOUBLE 1 1 8 8) in
  distance_to_cell 0 500 0 1000 0 1000 1 0 0 = 500
  /\ data (final (Spam.update_pollution grid 0 1 0 1 0 500 1 2 1 0
                    0 1000 0 1000 1 s0)) 0%Z > 0
  /\ data (final (CsModule.update_pollution grid 0 1 0 1 0 500 1 2 1 0
                    0 1000 0 1000 1 s0)) 0%Z = 0.
Proof.
  intros s0 grid.
  assert (Hd : distance_to_cell 0 500 0 1000 0 1000 1 0 0 = 500).
  { unfold distance_to_cell, CsModule.offset_to_receptor.
    apply sqrt_of_square; lra. }
  split; [exact Hd|]. split.
  - pose proof (spam_update_in_window grid 0 1 0 1 0 500 1 2 1 0
                  0 1000 0 1000 1 s0) as H.
    specialize (H ltac:(lia) 0%Z 0%Z ltac:(unfold in_window; lia)).
    rewrite spam_concentration_from_1 in H by lra.
    change (Spam.cell_index 1 0 0) with 0%Z in H. rewrite H, Hd. simpl.
    assert (0 < kernel 0.1 0.05 500
                  (angle_to_cell 0 500 0 1000 0 1000 1 0 0 0) 2)
      by (apply kernel_pos; lra).
    assert (0 < 1 / (2 * PI * 1)).
    { apply Rdiv_lt_0_compat; [lra|]. pose proof PI_RGT_0. lra. }
    nra.
  - pose proof (cs_update_pollution_cutoffs (mkArray 2 NPY_DOUBLE 1 1 8 8)
                  0 1 0 1 0 500 1 2 1 0 0 1000 0 1000 1 s0 0 0) as H.
    change (CsModule.cell_index (mkArray 2 NPY_DOUBLE 1 1 8 8) 0 0)
      with 0%Z in H.
    apply H; try reflexivity.
    + simpl. lia.
    + intros i j i' j' [Hi Hj] [Hi' Hj'] _. simpl in *. lia.
    + split; simpl; lia.
    + right. rewrite Hd. lra.
Qed.

(** ** The two single-source updaters (C6) *)




(** ** The angular difference (C8) *)

Lemma atan2_0_1 : atan2 0 1 = 0.
Proof.
  unfold atan2. destruct (Rlt_dec 0 1) as [_|H]; [|lra].
  replace (0 / 1) with 0 by lra. apply atan_0.
Qed.

(** C8 as stated fails: the wind direction is not reduced mod 2 pi; for a
    receptor straight east of the source (dx = 1, dy = 0) and
    wind_direction = 10 the computed difference is 2 pi - 10 < 0. *)
Lemma angle_diff_of_unreduced_wind_direction :
  ~ (0 <= CsModule.angle_diff 0 1 10 <= PI)
  /\ ~ (0 <= Spam.angle_diff 0 1 10 <= PI).
Proof.
  assert (H : CsModule.angle_diff 0 1 10 < 0).
  { unfold CsModule.angle_diff, fabs, M_PI. cbv zeta. rewrite atan2_0_1.
    rewrite (Rabs_left (0 - 10)) by lra.
    pose proof PI_4. destruct (Rgt_dec _ _); lra. }
  split; [|rewrite angle_diff_agree]; lra.
Qed.

(** C8, amended: for a wind direction in [-pi, pi] and every receptor
    offset (dx, dy), the angular difference computed by both modules lies in
    [0, pi]. *)
Theorem angle_diff_in_0_pi (dy dx wind_direction : R) :
  - PI <= wind_direction <= PI ->
  0 <= CsModule.angle_diff dy dx wind_direction <= PI
  /\ 0 <= Spam.angle_diff dy dx wind_direction <= PI.
Proof.
  intros Hw.
  assert (H : 0 <= CsModule.angle_diff dy dx wind_direction <= PI).
  { unfold CsModule.angle_diff, fabs, M_PI. cbv zeta.
    pose proof (atan2_bounds dy dx) as Hb.
    pose proof (Rabs_pos (atan2 dy dx - wind_direction)) as Hp.
    assert (Rabs (atan2 dy dx - wind_direction) <= 2 * PI)
      by (apply Rabs_le; lra).
    destruct (Rgt_dec _ _); lra. }
  split; [|rewrite angle_diff_agree]; exact H.
Qed.

Lemma angle_diff_in_0_pi_witness :
  0 <= CsModule.angle_diff 0 1 0 <= PI /\ 0 <= Spam.angle_diff 0 1 0 <= PI.
Proof.
  apply angle_diff_in_0_pi. pose proof PI_RGT_0. lra.
Defined.

(** ** The coefficients of the single-source updater (C5) *)

(** C5 as stated fails: [update_pollution] has no stability class; at
    distance 100 the coefficients it computes are not those of the table for
    class "A" (nor for "D"). *)
Lemma update_pollution_ignores_the_class_table :
  CsModule.inline_sigmas 100
    <> CsModule.calculate_dispersion_coefficients "A" 100
  /\ CsModule.inline_sigmas 100
    <> CsModule.calculate_dispersion_coefficients "D" 100.
Proof.
  pose proof (pow_neg_half_pos (1 + 0.0001 * 100)) as Hk.
  unfold CsModule.inline_sigmas, CsModule.calculate_dispersion_coefficients.
  simpl. split; intros [= H1 H2]; lra.
Qed.

(** C5, amended: for every cell it processes, the single-source updater of
    either module computes the coefficients with the fixed a = 0.10,
    b = 0.05, which are those the table gives for an unrecognized class
    string, whatever the atmosphere.  The loop body of
    [CsModule.update_pollution] is the loop body of
    [update_pollution_multiple] for an unrecognized class; the loop body of
    [Spam.update_pollution] is its own formula on the coefficients of the
    table for an unrecognized class, at every distance from 1 on. *)
Theorem update_pollution_uses_fallback_row (stability_class : string)
  (x y emission_rate plume_height wind_speed wind_direction
   x_min x_max y_min y_max : R) (grid_resolution i j : Z) (distance : R) :
  unrecognized stability_class ->
  CsModule.inline_sigmas distance
    = CsModule.calculate_dispersion_coefficients stability_class distance
  /\ CsModule.inline_sigmas distance
    = (0.10 * distance * pow (1 + 0.0001 * distance) (-0.5),
       0.05 * distance * pow (1 + 0.0001 * distance) (-0.5))
  /\ CsModule.concentration x y emission_rate plume_height wind_speed
       wind_direction x_min x_max y_min y_max grid_resolution i j
     = CsModule.concentration_multiple stability_class x y emission_rate
         plume_height wind_speed wind_direction x_min x_max y_min y_max
         grid_resolution i j
  /\ Spam.concentration x y emission_rate plume_height wind_speed
       wind_direction x_min x_max y_min y_max grid_resolution i j
     = (let d := distance_to_cell x y x_min x_max y_min y_max
                   grid_resolution i j in
        let angle := angle_to_cell x y x_min x_max y_min y_max
                       grid_resolution i j wind_direction in
        let '(sigma_y, sigma_z) :=
          CsModule.calculate_dispersion_coefficients stability_class d in
        if Rlt_dec d 1.0 then None else
        Some ((emission_rate / (2 * M_PI * wind_speed * sigma_y * sigma_z))
              * exp (-0.5 * pow (angle / sigma_y) 2)
              * (exp (-0.5 * pow (plume_height / sigma_z) 2)
                 + exp (-0.5 * pow (plume_height / sigma_z) 2)))).
Proof.
  intros Hc.
  assert (H : CsModule.inline_sigmas distance
              = (0.10 * distance * pow (1 + 0.0001 * distance) (-0.5),
                 0.05 * distance * pow (1 + 0.0001 * distance) (-0.5))).
  { unfold CsModule.inline_sigmas. cbv zeta.
    replace 0.10 with 0.1 by lra. reflexivity. }
  split; [|split; [|split]].
  - rewrite coefficients_unrecognized by assumption. exact H.
  - exact H.
  - symmetry. now apply multiple_concentration_default.
  - cbv zeta. rewrite (coefficients_unrecognized _ _ Hc).
    unfold distance_to_cell, angle_to_cell, Spam.concentration,
      CsModule.offset_to_receptor.
    cbv zeta. rewrite angle_diff_agree. reflexivity.
Qed.

Lemma update_pollution_uses_fallback_row_witness :
  CsModule.inline_sigmas 100
    = CsModule.calculate_dispersion_coefficients "X" 100
  /\ CsModule.inline_sigmas 100
    = (0.10 * 100 * pow (1 + 0.0001 * 100) (-0.5),
       0.05 * 100 * pow (1 + 0.0001 * 100) (-0.5))
  /\ CsModule.concentration 0 5 1 2 1 0 0 10 0 10 1 0 0
     = CsModule.concentration_multiple "X" 0 5 1 2 1 0 0 10 0 10 1 0 0
  /\ Spam.concentration 0 5 1 2 1 0 0 10 0 10 1 0 0
     = (let d := distance_to_cell 0 5 0 10 0 10 1 0 0 in
        let angle := angle_to_cell 0 5 0 10 0 10 1 0 0 0 in
        let '(sigma_y, sigma_z) :=
          CsModule.calculate_dispersion_coefficients "X" d in
        if Rlt_dec d 1.0 then None else
        Some ((1 / (2 * M_PI * 1 * sigma_y * sigma_z))
              * exp (-0.5 * pow (angle / sigma_y) 2)
              * (exp (-0.5 * pow (2 / sigma_z) 2)
                 + exp (-0.5 * pow (2 / sigma_z) 2)))).
Proof.
  apply update_pollution_uses_fallback_row.
  unfold unrecognized. simpl. intuition discriminate.
Defined.

(** ** The decay pass *)

Lemma fold_store_mul (c : R) (l : list Z) (m : mem) (k : Z) :
  NoDup l ->
  fold_left (fun m i => store_mul m i c) l m k
  = if in_dec Z.eq_dec k l then m k * c else m k.
Proof.
  revert m. induction l as [|i l IH]; intros m Hnd; simpl; [reflexivity|].
  inversion Hnd as [|? ? Hnotin Hnd']; subst.
  rewrite IH by assumption. unfold store_mul.
  destruct (Z.eq_dec i k) as [->|Hne].
  - destruct (in_dec Z.eq_dec k l); [contradiction|].
    destruct (Z.eq_dec k k); [reflexivity|congruence].
  - destruct (in_dec Z.eq_dec k l);
      destruct (Z.eq_dec k i); try congruence; reflexivity.
Qed.

Lemma decay_inside (size : Z) (m : mem) (k : Z) :
  (0 <= k < size)%Z -> CsModule.decay size m k = m k * 0.99.
Proof.
  intros Hk. unfold CsModule.decay, for_loop.
  rewrite fold_store_mul by apply range_NoDup.
  destruct (in_dec _ _ _) as [_|H]; [reflexivity|].
  exfalso. apply H. now apply range_In.
Qed.

Lemma decay_outside (size : Z) (m : mem) (k : Z) :
  ~ (0 <= k < size)%Z -> CsModule.decay size m k = m k.
Proof.
  intros Hk. unfold CsModule.decay, for_loop.
  rewrite fold_store_mul by apply range_NoDup.
  destruct (in_dec _ _ _) as [H|_]; [|reflexivity].
  exfalso. apply Hk. now apply range_In.
Qed.

(** * Further properties of the two modules *)

(** ** [calculate_dispersion_coefficients] *)

Lemma pow_neg_half_sqrt (v : R) : 0 < v -> pow v (-0.5) = / sqrt v.
Proof.
  intros Hv. rewrite pow_neg_half.
  replace (-0.5) with (- / 2) by lra.
  rewrite Rpower_Ropp, Rpower_sqrt by assumption. reflexivity.
Qed.

(** Whatever the class string, the coefficients come from one of the seven
    rows of the function. *)
Lemma coefficients_row (stability_class : string) (distance : R) :
  exists a b : R,
    In (a, b) [(0.22, 0.20); (0.16, 0.12); (0.11, 0.08); (0.08, 0.06);
               (0.06, 0.03); (0.04, 0.016); (0.10, 0.05)]
    /\ CsModule.calculate_dispersion_coefficients stability_class distance
       = (a * distance * pow (1 + 0.0001 * distance) (-0.5),
          b * distance * pow (1 + 0.0001 * distance) (-0.5)).
Proof.
  unfold CsModule.calculate_dispersion_coefficients.
  repeat match goal with
  | |- context [String.eqb ?s ?t] => destruct (String.eqb s t)
  end;
  do 2 eexists; (split; [|reflexivity]); simpl; tauto.
Qed.

Lemma row_positive (a b : R) :
  In (a, b) [(0.22, 0.20); (0.16, 0.12); (0.11, 0.08); (0.08, 0.06);
             (0.06, 0.03); (0.04, 0.016); (0.10, 0.05)] ->
  0 < b <= a.
Proof.
  simpl. intros H.
  repeat (destruct H as [H|H]; [injection H as <- <-; lra|]).
  contradiction.
Qed.

(** The distance factor d * (1 + d/10000)^(-1/2) is strictly increasing on
    d >= 0. *)
Lemma distance_factor_increasing (d1 d2 : R) :
  0 <= d1 < d2 ->
  d1 * pow (1 + 0.0001 * d1) (-0.5) < d2 * pow (1 + 0.0001 * d2) (-0.5).
Proof.
  intros [H1 H12].
  rewrite !pow_neg_half_sqrt by lra.
  assert (Hs1 : 0 < sqrt (1 + 0.0001 * d1)) by (apply sqrt_lt_R0; lra).
  assert (Hs2 : 0 < sqrt (1 + 0.0001 * d2)) by (apply sqrt_lt_R0; lra).
  pose proof (sqrt_sqrt (1 + 0.0001 * d1) ltac:(lra)) as Hq1.
  pose proof (sqrt_sqrt (1 + 0.0001 * d2) ltac:(lra)) as Hq2.
  set (s1 := sqrt (1 + 0.0001 * d1)) in *.
  set (s2 := sqrt (1 + 0.0001 * d2)) in *.
  assert (Hcross : d1 * s2 < d2 * s1).
  { destruct (Rlt_dec (d1 * s2) (d2 * s1)) as [H|H]; [exact H|].
    exfalso. apply Rnot_lt_le in H.
    assert (0 <= d2 * s1) by nra.
    assert (Hsq : (d2 * s1) * (d2 * s1) <= (d1 * s2) * (d1 * s2)) by nra.
    replace ((d2 * s1) * (d2 * s1)) with (d2 * d2 * (s1 * s1)) in Hsq by ring.
    replace ((d1 * s2) * (d1 * s2)) with (d1 * d1 * (s2 * s2)) in Hsq by ring.
    rewrite Hq1, Hq2 in Hsq.
    assert (0 < d1 * d2 + d1 + d2) by nra.
    assert (0 < (d2 - d1) * (d2 + d1 + 0.0001 * (d1 * d2)))
      by (apply Rmult_lt_0_compat; nra).
    lra. }
  apply (Rmult_lt_reg_r (s1 * s2)); [nra|].
  replace (d1 * / s1 * (s1 * s2)) with (d1 * s2) by (field; lra).
  replace (d2 * / s2 * (s1 * s2)) with (d2 * s1) by (field; lra).
  exact Hcross.
Qed.

Lemma distance_factor_le (d : R) :
  0 <= d -> d * pow (1 + 0.0001 * d) (-0.5) <= d.
Proof.
  intros Hd. rewrite pow_neg_half_sqrt by lra.
  assert (Hs : 1 <= sqrt (1 + 0.0001 * d)).
  { rewrite <- sqrt_1 at 1. apply sqrt_le_1_alt. lra. }
  assert (/ sqrt (1 + 0.0001 * d) <= 1).
  { rewrite <- Rinv_1 at 2. apply Rinv_le_contravar; lra. }
  nra.
Qed.

(** For every class string and every distance > 0 both coefficients are
    strictly positive and sigma_z <= sigma_y <= 0.22 * distance; at
    distance 0 both are 0. *)
Theorem dispersion_coefficients_bounds (stability_class : string)
  (distance : R) :
  let '(sigma_y, sigma_z) :=
    CsModule.calculate_dispersion_coefficients stability_class distance in
  (0 < distance -> 0 < sigma_z /\ sigma_z <= sigma_y
                   /\ sigma_y <= 0.22 * distance)
  /\ (distance = 0 -> sigma_y = 0 /\ sigma_z = 0).
Proof.
  destruct (coefficients_row stability_class distance) as (a & b & Hin & ->).
  pose proof (row_positive a b Hin) as Hab.
  assert (Ha : a <= 0.22).
  { simpl in Hin.
    repeat (destruct Hin as [Hin|Hin]; [injection Hin as <- <-; lra|]).
    contradiction. }
  split.
  - intros Hd.
    pose proof (pow_neg_half_pos (1 + 0.0001 * distance)) as Hk.
    pose proof (distance_factor_le distance ltac:(lra)) as Hle.
    set (k := pow (1 + 0.0001 * distance) (-0.5)) in *.
    assert (0 < distance * k) by nra.
    repeat split; nra.
  - intros ->. split; ring.
Qed.

(** For every class string both coefficients are strictly increasing in the
    distance on distance >= 0. *)
Theorem dispersion_coefficients_increasing (stability_class : string)
  (d1 d2 : R) :
  0 <= d1 < d2 ->
  fst (CsModule.calculate_dispersion_coefficients stability_class d1)
  < fst (CsModule.calculate_dispersion_coefficients stability_class d2)
  /\ snd (CsModule.calculate_dispersion_coefficients stability_class d1)
     < snd (CsModule.calculate_dispersion_coefficients stability_class d2).
Proof.
  intros Hd.
  pose proof (distance_factor_increasing d1 d2 Hd) as Hinc.
  unfold CsModule.calculate_dispersion_coefficients.
  repeat match goal with
  | |- context [String.eqb ?s ?t] => destruct (String.eqb s t)
  end; simpl; split; nra.
Qed.

Lemma dispersion_coefficients_increasing_witness :
  fst (CsModule.calculate_dispersion_coefficients "A" 1)
  < fst (CsModule.calculate_dispersion_coefficients "A" 300)
  /\ snd (CsModule.calculate_dispersion_coefficients "A" 1)
     < snd (CsModule.calculate_dispersion_coefficients "A" 300).
Proof.
  apply dispersion_coefficients_increasing. lra.
Defined.

(** At every distance > 0 the coefficients are ordered by class: A gives
    the widest plume, then B, C, D, E, and F the narrowest, in both
    directions; the fallback row lies between C and D horizontally and
    between D and E vertically. *)
Theorem dispersion_coefficients_by_class (distance : R) :
  0 < distance ->
  let sy := fun c => fst (CsModule.calculate_dispersion_coefficients c distance) in
  let sz := fun c => snd (CsModule.calculate_dispersion_coefficients c distance) in
  (sy "A" > sy "B" /\ sy "B" > sy "C" /\ sy "C" > sy "D"
   /\ sy "D" > sy "E" /\ sy "E" > sy "F")%string
  /\ (sz "A" > sz "B" /\ sz "B" > sz "C" /\ sz "C" > sz "D"
      /\ sz "D" > sz "E" /\ sz "E" > sz "F")%string
  /\ (sy "C" > sy "" /\ sy "" > sy "D")%string
  /\ (sz "D" > sz "" /\ sz "" > sz "E")%string.
Proof.
  intros Hd sy sz.
  pose proof (pow_neg_half_pos (1 + 0.0001 * distance)) as Hk.
  unfold sy, sz, CsModule.calculate_dispersion_coefficients. simpl.
  set (k := pow (1 + 0.0001 * distance) (-0.5)) in *.
  assert (0 < distance * k) by nra.
  repeat split; nra.
Qed.

Lemma dispersion_coefficients_by_class_witness :
  let sy := fun c => fst (CsModule.calculate_dispersion_coefficients c 100) in
  let sz := fun c => snd (CsModule.calculate_dispersion_coefficients c 100) in
  (sy "A" > sy "B" /\ sy "B" > sy "C" /\ sy "C" > sy "D"
   /\ sy "D" > sy "E" /\ sy "E" > sy "F")%string
  /\ (sz "A" > sz "B" /\ sz "B" > sz "C" /\ sz "C" > sz "D"
      /\ sz "D" > sz "E" /\ sz "E" > sz "F")%string
  /\ (sy "C" > sy "" /\ sy "" > sy "D")%string
  /\ (sz "D" > sz "" /\ sz "" > sz "E")%string.
Proof.
  apply dispersion_coefficients_by_class. lra.
Defined.

(** ** [calculate_plume_rise] and [calculate_emission_rate] *)

(** The plume height is never below 2, is exactly 2 for the speeds up to 10
    (negative ones included) and only for them, and never decreases when the
    speed grows. *)
Theorem plume_rise_floor_and_growth :
  (forall v, 2 <= CsModule.calculate_plume_rise v)
  /\ (forall v, CsModule.calculate_plume_rise v = 2 <-> v <= 10)
  /\ (forall v, 10 < v -> CsModule.calculate_plume_rise v = 0.15 * v + 0.5)
  /\ (forall v w, v <= w ->
        CsModule.calculate_plume_rise v <= CsModule.calculate_plume_rise w).
Proof.
  unfold CsModule.calculate_plume_rise.
  repeat split; intros;
    repeat match goal with
    | |- context [Rgt_dec ?p ?q] => destruct (Rgt_dec p q)
    | H : context [Rgt_dec ?p ?q] |- _ => destruct (Rgt_dec p q)
    end; lra.
Qed.


(** ** The loops are additive *)

Section Additive.
Variable off : Z -> Z -> Z.

Lemma cell_body_additive (conc : Z -> Z -> option R) (i j k : Z) (m : mem) :
  cell_body off conc i m j k
  = m k + cell_body off conc i (fun _ => 0) j k.
Proof.
  unfold cell_body, store_add. destruct (conc i j); [|lra].
  destruct (Z.eq_dec k (off i j)); lra.
Qed.

Lemma row_additive (conc : Z -> Z -> option R) (i k : Z) (cols : list Z)
  (m : mem) :
  fold_left (cell_body off conc i) cols m k
  = m k + fold_left (cell_body off conc i) cols (fun _ => 0) k.
Proof.
  revert m. induction cols as [|j cols IH]; intros m; simpl; [lra|].
  rewrite IH, (IH (cell_body off conc i (fun _ => 0) j)).
  rewrite cell_body_additive. lra.
Qed.

Lemma rows_additive (conc : Z -> Z -> option R) (k : Z) (rows cols : list Z)
  (m : mem) :
  fold_left (fun m i => fold_left (cell_body off conc i) cols m) rows m k
  = m k
    + fold_left (fun m i => fold_left (cell_body off conc i) cols m) rows
        (fun _ => 0) k.
Proof.
  revert m. induction rows as [|i rows IH]; intros m; simpl; [lra|].
  rewrite IH, (IH (fold_left (cell_body off conc i) cols (fun _ => 0))).
  rewrite row_additive. lra.
Qed.

(** What a pass of the nested loop leaves at an address is the old content
    plus an amount that does not depend on the old content. *)
Lemma accumulate_additive (conc : Z -> Z -> option R)
  (i_min i_max j_min j_max k : Z) (m : mem) :
  accumulate off conc i_min i_max j_min j_max m k
  = m k + accumulate off conc i_min i_max j_min j_max (fun _ => 0) k.
Proof. unfold accumulate, for_loop. apply rows_additive. Qed.

(** Scaling every concentration by [c] scales what the pass adds. *)
Lemma rows_scale (conc conc' : Z -> Z -> option R) (c : R) (k : Z)
  (rows cols : list Z) :
  (forall i j, conc' i j = option_map (Rmult c) (conc i j)) ->
  fold_left (fun m i => fold_left (cell_body off conc' i) cols m) rows
    (fun _ => 0) k
  = c * fold_left (fun m i => fold_left (cell_body off conc i) cols m) rows
          (fun _ => 0) k.
Proof.
  intros Hc.
  assert (Hrow : forall i cols,
    fold_left (cell_body off conc' i) cols (fun _ => 0) k
    = c * fold_left (cell_body off conc i) cols (fun _ => 0) k).
  { intros i cs. induction cs as [|j cs IH]; simpl; [lra|].
    rewrite row_additive, (row_additive conc), IH.
    unfold cell_body, store_add. rewrite Hc.
    destruct (conc i j); simpl; [|lra].
    destruct (Z.eq_dec k (off i j)); lra. }
  induction rows as [|i rows IH]; simpl; [lra|].
  rewrite rows_additive, (rows_additive conc), IH, Hrow. lra.
Qed.

Lemma accumulate_scale (conc conc' : Z -> Z -> option R) (c : R)
  (i_min i_max j_min j_max k : Z) :
  (forall i j, conc' i j = option_map (Rmult c) (conc i j)) ->
  accumulate off conc' i_min i_max j_min j_max (fun _ => 0) k
  = c * accumulate off conc i_min i_max j_min j_max (fun _ => 0) k.
Proof. intros H. unfold accumulate, for_loop. now apply rows_scale. Qed.

(** Non-negative concentrations never lower an element. *)
Lemma rows_nonneg (conc : Z -> Z -> option R) (k : Z) (rows cols : list Z) :
  (forall i j c, In i rows -> In j cols -> conc i j = Some c -> 0 <= c) ->
  0 <= fold_left (fun m i => fold_left (cell_body off conc i) cols m) rows
         (fun _ => 0) k.
Proof.
  intros Hc.
  assert (Hrow : forall i cs, In i rows -> incl cs cols ->
    0 <= fold_left (cell_body off conc i) cs (fun _ => 0) k).
  { intros i cs Hi. induction cs as [|j cs IH]; intros Hincl; simpl; [lra|].
    rewrite row_additive.
    assert (0 <= fold_left (cell_body off conc i) cs (fun _ => 0) k)
      by (apply IH; intros z Hz; apply Hincl; now right).
    assert (0 <= cell_body off conc i (fun _ => 0) j k).
    { unfold cell_body, store_add. destruct (conc i j) as [c|] eqn:E; [|lra].
      pose proof (Hc i j c Hi (Hincl j (or_introl eq_refl)) E).
      destruct (Z.eq_dec k (off i j)); lra. }
    lra. }
  induction rows as [|i rows IH]; simpl; [lra|].
  rewrite rows_additive.
  assert (0 <= fold_left
            (fun m i => fold_left (cell_body off conc i) cols m) rows
            (fun _ => 0) k).
  { apply IH.
    - intros i' j c Hi'. apply Hc. now right.
    - intros i' cs Hi'. apply Hrow. now right. }
  pose proof (Hrow i cols (or_introl eq_refl) (incl_refl cols)). lra.
Qed.

Lemma accumulate_nonneg (conc : Z -> Z -> option R)
  (i_min i_max j_min j_max k : Z) (m : mem) :
  (forall i j c, (i_min <= i < i_max)%Z -> (j_min <= j < j_max)%Z ->
     conc i j = Some c -> 0 <= c) ->
  m k <= accumulate off conc i_min i_max j_min j_max m k.
Proof.
  intros Hc. rewrite accumulate_additive.
  assert (0 <= accumulate off conc i_min i_max j_min j_max (fun _ => 0) k).
  { unfold accumulate, for_loop. apply rows_nonneg.
    intros i j c Hi Hj. apply Hc; now apply range_In. }
  lra.
Qed.

End Additive.

(** ** [CsModule.update_pollution]: failures, frame, composition *)

Lemma cs_concentration_some (x y emission_rate plume_height wind_speed
  wind_direction x_min x_max y_min y_max : R) (grid_resolution i j : Z)
  (c : R) :
  CsModule.concentration x y emission_rate plume_height wind_speed
    wind_direction x_min x_max y_min y_max grid_resolution i j = Some c ->
  1 <= distance_to_cell x y x_min x_max y_min y_max grid_resolution i j <= 300
  /\ c = emission_rate / (2 * PI * wind_speed)
         * kernel 0.1 0.05
             (distance_to_cell x y x_min x_max y_min y_max grid_resolution i j)
             (angle_to_cell x y x_min x_max y_min y_max grid_resolution i j
                wind_direction)
             plume_height.
Proof.
  intros H.
  destruct (Rlt_dec
    (distance_to_cell x y x_min x_max y_min y_max grid_resolution i j) 1)
    as [Hlo|Hlo].
  { rewrite cs_concentration_cut in H by (left; exact Hlo). discriminate. }
  destruct (Rlt_dec 300
    (distance_to_cell x y x_min x_max y_min y_max grid_resolution i j))
    as [Hhi|Hhi].
  { rewrite cs_concentration_cut in H by (right; exact Hhi). discriminate. }
  assert (Hd : 1 <= distance_to_cell x y x_min x_max y_min y_max
                      grid_resolution i j <= 300) by lra.
  rewrite cs_concentration_in_band in H by assumption.
  injection H as <-. split; [exact Hd|reflexivity].
Qed.

Lemma cs_concentration_scale (c x y emission_rate plume_height wind_speed
  wind_direction x_min x_max y_min y_max : R) (grid_resolution i j : Z) :
  CsModule.concentration x y (c * emission_rate) plume_height wind_speed
    wind_direction x_min x_max y_min y_max grid_resolution i j
  = option_map (Rmult c)
      (CsModule.concentration x y emission_rate plume_height wind_speed
         wind_direction x_min x_max y_min y_max grid_resolution i j).
Proof.
  unfold CsModule.concentration.
  destruct (CsModule.offset_to_receptor _ _ _ _ _ _ _ _ _) as [dx dy].
  cbv zeta.
  destruct (Rlt_dec _ _); [reflexivity|].
  destruct (Rgt_dec _ _); [reflexivity|].
  destruct (CsModule.inline_sigmas _) as [sigma_y sigma_z].
  simpl. f_equal. unfold Rdiv. ring.
Qed.


(** A window with no row or no column leaves the whole buffer as it is. *)
Theorem update_pollution_empty_window (grid : PyObject)
  (i_min i_max j_min j_max : Z)
  (x y emission_rate plume_height wind_speed wind_direction
   x_min x_max y_min y_max : R) (grid_resolution : Z) (s : state) (k : Z) :
  (i_max <= i_min \/ j_max <= j_min)%Z ->
  data (final (CsModule.update_pollution grid i_min i_max j_min j_max x y
                 emission_rate plume_height wind_speed wind_direction
                 x_min x_max y_min y_max grid_resolution s)) k
  = data s k
  /\ data (final (Spam.update_pollution grid i_min i_max j_min j_max x y
                    emission_rate plume_height wind_speed wind_direction
                    x_min x_max y_min y_max grid_resolution s)) k
     = data s k.
Proof.
  intros He. split.
  - unfold CsModule.update_pollution.
    destruct (negb _); [reflexivity|].
    destruct (_ || _); [reflexivity|].
    simpl. apply accumulate_frame. intros i j Hi Hj. lia.
  - unfold Spam.update_pollution. simpl.
    apply accumulate_frame. intros i j Hi Hj. lia.
Qed.

Lemma update_pollution_empty_window_witness :
  data (final (CsModule.update_pollution
                 (PyArray (mkArray 2 NPY_DOUBLE 1 1 8 8)) 0 0 0 1
                 0 5 1 2 1 0 0 10 0 10 1 (mkState (fun _ => 7) None))) 0%Z
  = data (mkState (fun _ => 7) None) 0%Z
  /\ data (final (Spam.update_pollution
                    (PyArray (mkArray 2 NPY_DOUBLE 1 1 8 8)) 0 0 0 1
                    0 5 1 2 1 0 0 10 0 10 1 (mkState (fun _ => 7) None))) 0%Z
     = data (mkState (fun _ => 7) None) 0%Z.
Proof.
  apply update_pollution_empty_window. left. lia.
Defined.

(** On a dense array [update_pollution] never writes outside the
    [PyArray_SIZE] elements of the buffer, whatever its other arguments and
    whether it fails or not. *)
Theorem update_pollution_stays_in_buffer (a : PyArrayObject)
  (i_min i_max j_min j_max : Z)
  (x y emission_rate plume_height wind_speed wind_direction
   x_min x_max y_min y_max : R) (grid_resolution : Z) (s : state) (k : Z) :
  dense a ->
  ~ (0 <= k < PyArray_SIZE a)%Z ->
  data (final (CsModule.update_pollution (PyArray a) i_min i_max j_min j_max
                 x y emission_rate plume_height wind_speed wind_direction
                 x_min x_max y_min y_max grid_resolution s)) k
  = data s k.
Proof.
  intros [_ Hsz] Hk. unfold CsModule.update_pollution.
  destruct (negb _); [reflexivity|].
  destruct (_ || _) eqn:E; [reflexivity|].
  simpl. apply accumulate_frame. intros i j Hi Hj. right. intros Heq.
  apply Hk. rewrite <- Heq. apply Hsz.
  apply orb_false_elim in E as [E E4]. apply orb_false_elim in E as [E E3].
  apply orb_false_elim in E as [E1 E2].
  apply Z.ltb_ge in E1, E3. rewrite Z.gtb_ltb in E2, E4.
  apply Z.ltb_ge in E2, E4. simpl in *. split; lia.
Qed.

Lemma update_pollution_stays_in_buffer_witness :
  data (final (CsModule.update_pollution
                 (PyArray (mkArray 2 NPY_DOUBLE 1 1 8 8)) 0 1 0 1
                 0 5 1 2 1 0 0 10 0 10 1 (mkState (fun _ => 7) None))) 1%Z
  = data (mkState (fun _ => 7) None) 1%Z.
Proof.
  apply update_pollution_stays_in_buffer.
  - apply c_contiguous_dense. unfold c_contiguous. simpl. lia.
  - unfold PyArray_SIZE. simpl. lia.
Defined.




(** With emission rate 0, a wind speed other than 0 and a grid_resolution
    other than 0, [update_pollution] leaves every element of the buffer as
    it is, whatever the grid and the window: every concentration it adds
    is 0. *)
Theorem update_pollution_zero_emission (grid : PyObject)
  (i_min i_max j_min j_max : Z)
  (x y plume_height wind_speed wind_direction
   x_min x_max y_min y_max : R) (grid_resolution : Z) (s : state) (k : Z) :
  wind_speed <> 0 -> grid_resolution <> 0%Z ->
  (forall i j c,
     CsModule.concentration x y 0 plume_height wind_speed wind_direction
       x_min x_max y_min y_max grid_resolution i j = Some c -> c = 0)
  /\ data (final (CsModule.update_pollution grid i_min i_max j_min j_max
                    x y 0 plume_height wind_speed wind_direction
                    x_min x_max y_min y_max grid_resolution s)) k
     = data s k.
Proof.
  intros _ _. split.
  - intros i j c Hc. apply cs_concentration_some in Hc as [_ ->].
    unfold Rdiv. ring.
  - unfold CsModule.update_pollution.
    destruct (negb _); [reflexivity|].
    destruct (_ || _); [reflexivity|].
    simpl. rewrite accumulate_additive.
    rewrite (accumulate_scale _
               (CsModule.concentration x y 1 plume_height wind_speed
                  wind_direction x_min x_max y_min y_max grid_resolution)
               _ 0).
    + ring.
    + intros i j. rewrite <- cs_concentration_scale. f_equal. ring.
Qed.

Lemma update_pollution_zero_emission_witness :
  (forall i j c,
     CsModule.concentration 0 5 0 2 1 0 0 10 0 10 1 i j = Some c -> c = 0)
  /\ data (final (CsModule.update_pollution
                    (PyArray (mkArray 2 NPY_DOUBLE 1 1 8 8)) 0 1 0 1
                    0 5 0 2 1 0 0 10 0 10 1 (mkState (fun _ => 7) None))) 0%Z
     = data (mkState (fun _ => 7) None) 0%Z.
Proof.
  apply update_pollution_zero_emission; [lra|lia].
Defined.

(** ** The cutoffs on the grid *)



(** ** [Spam.update_pollution] checks nothing *)





(** ** Symmetry of the angular difference *)

Lemma atan2_opp (y x : R) :
  ~ (x < 0 /\ y = 0) -> atan2 (- y) x = - atan2 y x.
Proof.
  intros Hn. unfold atan2.
  replace (- y / x) with (- (y / x)) by (unfold Rdiv; ring).
  rewrite atan_opp.
  destruct (Rlt_dec 0 x); [reflexivity|].
  destruct (Rlt_dec x 0).
  - destruct (Rle_dec 0 (- y)), (Rle_dec 0 y); lra.
  - destruct (Rlt_dec 0 (- y)), (Rlt_dec 0 y), (Rlt_dec (- y) 0),
      (Rlt_dec y 0); lra.
Qed.

Lemma atan2_west (x : R) : x < 0 -> atan2 0 x = PI.
Proof.
  intros Hx. unfold atan2.
  destruct (Rlt_dec 0 x); [lra|]. destruct (Rlt_dec x 0); [|lra].
  destruct (Rle_dec 0 0); [|lra].
  replace (0 / x) with 0 by (unfold Rdiv; ring). rewrite atan_0. lra.
Qed.

(** Mirroring the receptor across the x axis together with the wind
    direction (dy -> -dy, wind_direction -> -wind_direction) does not change
    the angular difference, for a wind direction in [-pi, pi]; so the
    concentration formula gives mirrored plumes for mirrored winds. *)
Theorem angle_diff_mirror (dy dx wind_direction : R) :
  - PI <= wind_direction <= PI ->
  CsModule.angle_diff (- dy) dx (- wind_direction)
  = CsModule.angle_diff dy dx wind_direction
  /\ Spam.angle_diff (- dy) dx (- wind_direction)
     = Spam.angle_diff dy dx wind_direction.
Proof.
  intros Hw.
  assert (H : CsModule.angle_diff (- dy) dx (- wind_direction)
              = CsModule.angle_diff dy dx wind_direction).
  { unfold CsModule.angle_diff, fabs, M_PI. cbv zeta.
    destruct (Rlt_dec dx 0) as [Hx|Hx];
      [destruct (Req_dec dy 0) as [Hy|Hy]|].
    - subst dy. rewrite Ropp_0, (atan2_west dx Hx).
      pose proof PI_RGT_0.
      replace (PI - - wind_direction) with (PI + wind_direction) by ring.
      rewrite (Rabs_pos_eq (PI + wind_direction)),
        (Rabs_pos_eq (PI - wind_direction)) by lra.
      destruct (Rgt_dec (PI + wind_direction) PI),
        (Rgt_dec (PI - wind_direction) PI); lra.
    - rewrite atan2_opp by tauto.
      replace (- atan2 dy dx - - wind_direction)
        with (- (atan2 dy dx - wind_direction)) by ring.
      rewrite Rabs_Ropp. reflexivity.
    - rewrite atan2_opp by tauto.
      replace (- atan2 dy dx - - wind_direction)
        with (- (atan2 dy dx - wind_direction)) by ring.
      rewrite Rabs_Ropp. reflexivity. }
  split; [exact H|]. rewrite !angle_diff_agree. exact H.
Qed.

Lemma angle_diff_mirror_witness :
  CsModule.angle_diff (- 1) (- 1) (- 1) = CsModule.angle_diff 1 (- 1) 1
  /\ Spam.angle_diff (- 1) (- 1) (- 1) = Spam.angle_diff 1 (- 1) 1.
Proof.
  apply (angle_diff_mirror 1 (- 1) 1).
  pose proof PI2_1. pose proof PI_RGT_0. lra.
Defined.

(** ** Size of an increment *)





(** ** The loop over the vehicles *)

Lemma double_of_error (o : PyObject) (e : exc) :
  double_of o = inl e -> e = TypeError \/ e = OverflowError.
Proof.
  destruct o; unfold double_of; try (intros [= <-]; now left).
  destruct (long_fits_double z); intros H; [discriminate H|].
  injection H as <-. now right.
Qed.

Lemma emission_rate_nonneg (v f : R) :
  0 <= f -> 0 <= CsModule.calculate_emission_rate v f.
Proof.
  intros Hf. unfold CsModule.calculate_emission_rate. cbv zeta.
  destruct (Rgt_dec v 20); nra.
Qed.

Lemma multiple_concentration_some (stability_class : string)
  (x y emission_rate plume_height wind_speed
   wind_direction x_min x_max y_min y_max : R) (grid_resolution i j : Z)
  (c : R) :
  CsModule.concentration_multiple stability_class x y emission_rate
    plume_height wind_speed wind_direction x_min x_max y_min y_max
    grid_resolution i j = Some c ->
  exists a b : R,
    0 < b <= a
    /\ 1 <= distance_to_cell x y x_min x_max y_min y_max grid_resolution i j
         <= 300
    /\ c = emission_rate / (2 * PI * wind_speed)
           * kernel a b
               (distance_to_cell x y x_min x_max y_min y_max
                  grid_resolution i j)
               (angle_to_cell x y x_min x_max y_min y_max
                  grid_resolution i j wind_direction)
               plume_height.
Proof.
  unfold CsModule.concentration_multiple, distance_to_cell, angle_to_cell.
  destruct (CsModule.offset_to_receptor _ _ _ _ _ _ _ _ _) as [dx dy].
  cbv zeta.
  pose proof (sum_squares_nonneg dx dy) as Hnn.
  destruct (Rlt_dec _ _) as [H|H]; [discriminate|].
  destruct (Rgt_dec _ _) as [H'|H']; [discriminate|].
  destruct (coefficients_row stability_class (sqrt (dx * dx + dy * dy)))
    as (a & b & Hin & ->).
  intros [= <-]. exists a, b. split; [now apply row_positive|]. split.
  - split; [|lra].
    destruct (Rlt_dec (sqrt (dx * dx + dy * dy)) 1) as [Hlt|Hge]; [|lra].
    apply (proj1 (sqrt_lt_1 _ Hnn)) in Hlt. lra.
  - unfold kernel, M_PI. cbv zeta. unfold Rdiv.
    replace 2.0 with 2 by lra. ring.
Qed.

Section Batch.
Variable a : PyArrayObject.
Variables wind_speed wind_direction emission_factor : R.
Variable stability_class : string.
Variables x_min x_max y_min y_max : R.
Variable grid_resolution : Z.

Let step : PyObject -> state -> state :=
  CsModule.update_vehicle a wind_speed wind_direction emission_factor
    stability_class x_min x_max y_min y_max grid_resolution.

Let loop : list PyObject -> state -> result :=
  CsModule.vehicles_loop a wind_speed wind_direction emission_factor
    stability_class x_min x_max y_min y_max grid_resolution.

(** What one vehicle does to the buffer: a pass of the nested loop, with
    the doubles read from the three fields. *)
Lemma update_vehicle_data (v : PyObject) (s : state) (k : Z) :
  data (step v s) k
  = (let x := as_double (PyTuple_GetItem v 0) in
     let y := as_double (PyTuple_GetItem v 1) in
     let vehicle_speed := as_double (PyTuple_GetItem v 2) in
     let '(i_min, i_max, j_min, j_max) :=
       CsModule.window x y x_min x_max y_min y_max grid_resolution a in
     accumulate (CsModule.cell_index a)
       (CsModule.concentration_multiple stability_class x y
          (CsModule.calculate_emission_rate vehicle_speed emission_factor)
          (CsModule.calculate_plume_rise vehicle_speed)
          wind_speed wind_direction x_min x_max y_min y_max grid_resolution)
       i_min i_max j_min j_max (data s) k).
Proof.
  unfold step, CsModule.update_vehicle, CsModule.read_vehicle,
    PyFloat_AsDouble. cbn beta iota zeta.
  destruct (CsModule.window _ _ _ _ _ _ _ _) as [[[i_min i_max] j_min] j_max].
  cbn [data]. f_equal.
  destruct (double_of (PyTuple_GetItem v 0)),
    (double_of (PyTuple_GetItem v 1)),
    (double_of (PyTuple_GetItem v 2)); reflexivity.
Qed.

(** What one vehicle does to the error indicator: the last field that does
    not convert leaves its error. *)
Lemma update_vehicle_exc (v : PyObject) (s : state) :
  exc_indicator (step v s)
  = match double_of (PyTuple_GetItem v 2) with
    | inl e => Some e
    | inr _ =>
        match double_of (PyTuple_GetItem v 1) with
        | inl e => Some e
        | inr _ =>
            match double_of (PyTuple_GetItem v 0) with
            | inl e => Some e
            | inr _ => exc_indicator s
            end
        end
    end.
Proof.
  unfold step, CsModule.update_vehicle, CsModule.read_vehicle,
    PyFloat_AsDouble. cbn beta iota zeta.
  destruct (CsModule.window _ _ _ _ _ _ _ _) as [[[i_min i_max] j_min] j_max].
  cbn [exc_indicator].
  destruct (double_of (PyTuple_GetItem v 0)),
    (double_of (PyTuple_GetItem v 1)),
    (double_of (PyTuple_GetItem v 2)); reflexivity.
Qed.

Lemma vehicles_loop_ret (vehicles : list PyObject) (s : state) :
  ret (loop vehicles s)
  = if forallb CsModule.is_3tuple vehicles then Py_None else NULL.
Proof.
  revert s. induction vehicles as [|v vs IH]; intros s; [reflexivity|].
  unfold loop in *. simpl. destruct (CsModule.is_3tuple v); simpl.
  - apply IH.
  - reflexivity.
Qed.

Lemma vehicles_loop_returns (vehicles : list PyObject) (s : state) :
  Forall (fun v => CsModule.is_3tuple v = true) vehicles ->
  ret (loop vehicles s) = Py_None.
Proof.
  intros H. rewrite vehicles_loop_ret.
  replace (forallb CsModule.is_3tuple vehicles) with true; [reflexivity|].
  symmetry. apply forallb_forall. now apply Forall_forall.
Qed.


Lemma vehicles_loop_single (v : PyObject) (s : state) :
  CsModule.is_3tuple v = true ->
  loop [v] s = mkResult Py_None (step v s).
Proof. intros H. unfold loop. simpl. rewrite H. reflexivity. Qed.

Lemma vehicles_loop_null (vehicles : list PyObject) (s : state) :
  ret (loop vehicles s) = NULL ->
  exc_indicator (final (loop vehicles s)) = Some ValueError.
Proof.
  revert s. induction vehicles as [|v vs IH]; intros s; unfold loop in *;
    simpl; [discriminate|].
  destruct (CsModule.is_3tuple v); simpl; [apply IH|reflexivity].
Qed.

End Batch.

(** The return value and the error indicator of the loop do not depend on
    the wind speed. *)
Lemma vehicles_loop_outcome (a : PyArrayObject)
  (wind_speed wind_speed' wind_direction emission_factor : R)
  (stability_class : string) (x_min x_max y_min y_max : R)
  (grid_resolution : Z) (vehicles : list PyObject) (s1 s2 : state) :
  exc_indicator s1 = exc_indicator s2 ->
  let r := CsModule.vehicles_loop a wind_speed wind_direction
             emission_factor stability_class x_min x_max y_min y_max
             grid_resolution vehicles s1 in
  let r' := CsModule.vehicles_loop a wind_speed' wind_direction
              emission_factor stability_class x_min x_max y_min y_max
              grid_resolution vehicles s2 in
  ret r = ret r' /\ exc_indicator (final r) = exc_indicator (final r').
Proof.
  revert s1 s2. induction vehicles as [|v vs IH]; intros s1 s2 Hs; simpl.
  - split; [reflexivity|exact Hs].
  - destruct (CsModule.is_3tuple v); simpl.
    + apply IH. rewrite !update_vehicle_exc, Hs. reflexivity.
    + split; reflexivity.
Qed.

(** The error indicator after the loop over 3-tuples. *)
Lemma vehicles_loop_exc (a : PyArrayObject)
  (wind_speed wind_direction emission_factor : R)
  (stability_class : string) (x_min x_max y_min y_max : R)
  (grid_resolution : Z) (vehicles : list PyObject) (s : state) :
  Forall (fun v => CsModule.is_3tuple v = true) vehicles ->
  let numbers := fun v =>
    is_number (PyTuple_GetItem v 0) && is_number (PyTuple_GetItem v 1)
    && is_number (PyTuple_GetItem v 2) in
  let e := exc_indicator
             (final (CsModule.vehicles_loop a wind_speed wind_direction
                       emission_factor stability_class x_min x_max y_min
                       y_max grid_resolution vehicles s)) in
  (forallb numbers vehicles = true -> e = exc_indicator s)
  /\ (forallb numbers vehicles = false ->
      e = Some TypeError \/ e = Some OverflowError).
Proof.
  intros Hall numbers. revert s.
  induction Hall as [|v vs Hv Hvs IH]; intros s; simpl.
  - split; [reflexivity|discriminate].
  - rewrite Hv. simpl.
    specialize (IH (CsModule.update_vehicle a wind_speed wind_direction
                      emission_factor stability_class x_min x_max y_min
                      y_max grid_resolution v s)).
    cbv zeta in IH. destruct IH as [IH1 IH2].
    rewrite update_vehicle_exc in IH1.
    unfold numbers at 1 3. unfold is_number.
    destruct (double_of (PyTuple_GetItem v 0)) as [e0|r0] eqn:E0,
      (double_of (PyTuple_GetItem v 1)) as [e1|r1] eqn:E1,
      (double_of (PyTuple_GetItem v 2)) as [e2|r2] eqn:E2;
      simpl; (split; [try discriminate|]);
      try (intros H; rewrite IH1 by exact H; reflexivity);
      intros H;
      try (destruct (forallb numbers vs) eqn:Ev;
           [rewrite IH1 by reflexivity|now apply IH2]);
      try (now apply IH2);
      try (apply double_of_error in E0); try (apply double_of_error in E1);
      try (apply double_of_error in E2); intuition congruence.
Qed.

(** ** [update_pollution_multiple] on its argument tuple *)

(** The first two arguments are taken as they are; whether the parse
    succeeds, and the eight values it reads, depend on the others only. *)
Lemma parse_OOdddsdddi_objects (grid vehicle_list : PyObject)
  (rest : list PyObject) :
  CsModule.parse_OOdddsdddi (grid :: vehicle_list :: rest)
  = match CsModule.parse_OOdddsdddi (PyNone :: PyNone :: rest) with
    | inl e => inl e
    | inr (_, _, wind_speed, wind_direction, emission_factor,
           stability_class, x_min, x_max, y_min, n) =>
        inr (grid, vehicle_list, wind_speed, wind_direction, emission_factor,
             stability_class, x_min, x_max, y_min, n)
    end.
Proof.
  do 8 (destruct rest as [|? rest]; [reflexivity|]).
  destruct rest; [|reflexivity].
  unfold CsModule.parse_OOdddsdddi, bind.
  repeat match goal with
  | |- context [parse_d ?p] => destruct (parse_d p); try reflexivity
  | |- context [parse_s ?p] => destruct (parse_s p); try reflexivity
  | |- context [parse_i ?p] => destruct (parse_i p); try reflexivity
  end.
Qed.

Lemma update_batch_unfold (grid vehicle_list : PyObject)
  (rest : list PyObject) (y_max : R) (grid_resolution : Z) (s : state) :
  CsModule.update_pollution_multiple (grid :: vehicle_list :: rest)
    y_max grid_resolution s
  = match CsModule.parse_OOdddsdddi (PyNone :: PyNone :: rest) with
    | inl e => mkResult NULL (PyErr_SetString e s)
    | inr (_, _, wind_speed, wind_direction, emission_factor,
           stability_class, x_min, x_max, y_min, _) =>
        CsModule.update_pollution_multiple_body grid vehicle_list wind_speed
          wind_direction emission_factor stability_class
          x_min x_max y_min y_max grid_resolution s
    end.
Proof.
  unfold CsModule.update_pollution_multiple.
  rewrite parse_OOdddsdddi_objects.
  destruct (CsModule.parse_OOdddsdddi (PyNone :: PyNone :: rest))
    as [e|[[[[[[[[[g0 v0] ws] wd] ef] cls] xm] xM] ym] n]]; reflexivity.
Qed.

(** A call that returns [None] for some list of vehicles has passed the
    parse, the check of the grid and the check of the list entries. *)
Lemma update_batch_passed (grid : PyObject) (vehicles : list PyObject)
  (rest : list PyObject) (y_max : R) (grid_resolution : Z) (s : state) :
  ret (CsModule.update_pollution_multiple (grid :: PyList vehicles :: rest)
         y_max grid_resolution s) = Py_None ->
  exists wind_speed wind_direction emission_factor stability_class
         x_min x_max y_min,
    CsModule.grid_is_2d_double grid = true
    /\ Forall (fun v => CsModule.is_3tuple v = true) vehicles
    /\ forall l,
         CsModule.update_pollution_multiple (grid :: PyList l :: rest)
           y_max grid_resolution s
         = CsModule.vehicles_loop (header grid) wind_speed wind_direction
             emission_factor stability_class x_min x_max y_min y_max
             grid_resolution l
             (mkState (CsModule.decay (PyArray_SIZE (header grid)) (data s))
                (exc_indicator s)).
Proof.
  rewrite update_batch_unfold.
  destruct (CsModule.parse_OOdddsdddi (PyNone :: PyNone :: rest))
    as [e|[[[[[[[[[g0 v0] ws] wd] ef] cls] xm] xM] ym] n]] eqn:Hp;
    [discriminate|].
  unfold CsModule.update_pollution_multiple_body.
  destruct (CsModule.grid_is_2d_double grid) eqn:Hg; [|discriminate].
  cbn [negb PyList_Check PyList_items]. rewrite vehicles_loop_ret.
  destruct (forallb CsModule.is_3tuple vehicles) eqn:Hv; [|discriminate].
  intros _. exists ws, wd, ef, cls, xm, xM, ym.
  split; [reflexivity|]. split.
  - apply Forall_forall. now apply forallb_forall.
  - intros l. rewrite update_batch_unfold, Hp.
    unfold CsModule.update_pollution_multiple_body. rewrite Hg. reflexivity.
Qed.

(** ** Malformed entries (C3) *)




(** ** Wind speed (C4) *)

(** C4 as stated fails: on a 1 x 1 grid over [0,10]^2 with the source at
    (0,5), [update_pollution] returns [None] with no error set for
    wind_speed = 0 and for wind_speed = -1, and with -1 the cell, which
    held 0, ends up negative; a call of [update_pollution_multiple] that
    passes the parse returns [None] with no error set as well, whatever the
    values left in [y_max] and [grid_resolution]. *)
Lemma nonpositive_wind_speed_is_accepted :
  let grid := PyArray (mkArray 2 NPY_DOUBLE 1 1 8 8) in
  let s0 := mkState (fun _ => 0) None in
  let single := fun wind_speed =>
    CsModule.update_pollution grid 0 1 0 1 0 5 1 2 wind_speed 0
      0 10 0 10 1 s0 in
  let batch := fun wind_speed y_max grid_resolution =>
    CsModule.update_pollution_multiple
      [grid; PyList [PyTuple [PyFloat 0; PyFloat 5; PyFloat 10]];
       PyFloat wind_speed; PyFloat 0; PyFloat 1; PyStr "D"; PyFloat 0;
       PyFloat 10; PyFloat 0; PyLong 10] y_max grid_resolution s0 in
  (ret (single 0) = Py_None /\ exc_indicator (final (single 0)) = None)
  /\ (ret (single (-1)) = Py_None
      /\ exc_indicator (final (single (-1))) = None
      /\ data (final (single (-1))) 0%Z < data s0 0%Z)
  /\ (forall y_max grid_resolution,
       ret (batch 0 y_max grid_resolution) = Py_None
       /\ exc_indicator (final (batch 0 y_max grid_resolution)) = None)
  /\ (forall y_max grid_resolution,
       ret (batch (-1) y_max grid_resolution) = Py_None
       /\ exc_indicator (final (batch (-1) y_max grid_resolution)) = None).
Proof.
  intros grid s0 single batch.
  assert (Hb : forall w y_max grid_resolution,
            ret (batch w y_max grid_resolution) = Py_None
            /\ exc_indicator (final (batch w y_max grid_resolution)) = None).
  { intros w y_max grid_resolution.
    assert (H : batch w y_max grid_resolution
                = CsModule.vehicles_loop (mkArray 2 NPY_DOUBLE 1 1 8 8)
                    w 0 1 "D" 0 10 0 y_max grid_resolution
                    [PyTuple [PyFloat 0; PyFloat 5; PyFloat 10]]
                    (mkState (CsModule.decay 1 (data s0)) None))
      by reflexivity.
    rewrite H, vehicles_loop_single by reflexivity.
    split; [reflexivity|].
    cbn [final]. rewrite update_vehicle_exc. reflexivity. }
  split; [split; reflexivity|]. split; [|split; intros; apply Hb].
  split; [reflexivity|]. split; [reflexivity|].
  pose proof (update_pollution_in_window (mkArray 2 NPY_DOUBLE 1 1 8 8)
                0 1 0 1 0 5 1 2 (-1) 0 0 10 0 10 1 s0) as H.
  specialize (H eq_refl ltac:(simpl; lia)).
  specialize (H 0%Z 0%Z).
  change (CsModule.cell_index (mkArray 2 NPY_DOUBLE 1 1 8 8) 0 0)
    with 0%Z in H.
  assert (Hd : distance_to_cell 0 5 0 10 0 10 1 0 0 = 5).
  { unfold distance_to_cell, CsModule.offset_to_receptor.
    apply sqrt_of_square; lra. }
  unfold single, grid. cbv beta. rewrite H.
  - rewrite cs_concentration_in_band by (rewrite Hd; lra).
    rewrite Hd. simpl.
    assert (0 < kernel 0.1 0.05 5 (angle_to_cell 0 5 0 10 0 10 1 0 0 0) 2)
      by (apply kernel_pos; lra).
    assert (0 < / (2 * PI)) by (apply Rinv_0_lt_compat; pose proof PI_RGT_0; lra).
    replace (1 / (2 * PI * -1)) with (- / (2 * PI)).
    + nra.
    + field. pose proof PI_RGT_0. lra.
  - intros i j i' j' [Hi Hj] [Hi' Hj'] _. simpl in *. lia.
  - unfold in_window. lia.
Qed.

(** C4, amended: the wind speed is not validated.  Whether
    [update_pollution] returns [None] or [NULL], and the error it leaves, do
    not depend on the wind speed, and neither do they for
    [update_pollution_multiple] once the wind speed is a number; so a call
    that succeeds for a positive wind speed succeeds for a zero or negative
    one.  With a negative wind speed, an emission rate that is not
    negative and a grid_resolution other than 0, no concentration the two
    loop bodies add is above 0. *)
Theorem wind_speed_is_not_validated :
  (forall (grid : PyObject) (i_min i_max j_min j_max : Z)
     (x y emission_rate plume_height wind_speed wind_speed' wind_direction
      x_min x_max y_min y_max : R) (grid_resolution : Z) (s : state),
     let single := fun w =>
       CsModule.update_pollution grid i_min i_max j_min j_max x y
         emission_rate plume_height w wind_direction
         x_min x_max y_min y_max grid_resolution s in
     ret (single wind_speed) = ret (single wind_speed')
     /\ exc_indicator (final (single wind_speed))
        = exc_indicator (final (single wind_speed')))
  /\ (forall (grid vehicle_list o o' : PyObject) (rest : list PyObject)
        (y_max : R) (grid_resolution : Z) (s : state),
        is_number o = true -> is_number o' = true ->
        let batch := fun w =>
          CsModule.update_pollution_multiple
            (grid :: vehicle_list :: w :: rest) y_max grid_resolution s in
        ret (batch o) = ret (batch o')
        /\ exc_indicator (final (batch o)) = exc_indicator (final (batch o')))
  /\ (forall (stability_class : string)
        (x y emission_rate plume_height wind_speed wind_direction
         x_min x_max y_min y_max : R) (grid_resolution i j : Z) (c : R),
        wind_speed < 0 -> 0 <= emission_rate -> grid_resolution <> 0%Z ->
        CsModule.concentration x y emission_rate plume_height wind_speed
          wind_direction x_min x_max y_min y_max grid_resolution i j
        = Some c
        \/ CsModule.concentration_multiple stability_class x y emission_rate
             plume_height wind_speed wind_direction x_min x_max y_min y_max
             grid_resolution i j
           = Some c ->
        c <= 0).
Proof.
  split; [|split].
  - intros. unfold single, CsModule.update_pollution.
    destruct (negb _); [split; reflexivity|].
    destruct (_ || _); split; reflexivity.
  - intros grid vehicle_list o o' rest y_max grid_resolution s Ho Ho' batch.
    unfold batch. rewrite !update_batch_unfold.
    do 7 (destruct rest as [|? rest]; [split; reflexivity|]).
    destruct rest; [|split; reflexivity].
    unfold CsModule.parse_OOdddsdddi, bind, parse_d.
    unfold is_number in Ho, Ho'.
    destruct (double_of o) as [?|w]; [discriminate|].
    destruct (double_of o') as [?|w']; [discriminate|].
    repeat match goal with
    | |- context [double_of ?p] =>
        destruct (double_of p); try (split; reflexivity)
    | |- context [parse_s ?p] =>
        destruct (parse_s p); try (split; reflexivity)
    | |- context [parse_i ?p] =>
        destruct (parse_i p); try (split; reflexivity)
    end.
    unfold CsModule.update_pollution_multiple_body.
    destruct (negb _); [split; reflexivity|].
    destruct (negb _); [split; reflexivity|].
    now apply vehicles_loop_outcome.
  - intros cls x y e h w wd x_min x_max y_min y_max n i j c Hw He _ Hc.
    assert (Hq : e / (2 * PI * w) <= 0).
    { unfold Rdiv. pose proof PI_RGT_0 as Hpi.
      assert (0 < / (2 * PI * - w))
        by (apply Rinv_0_lt_compat; apply Rmult_lt_0_compat; lra).
      replace (/ (2 * PI * w)) with (- / (2 * PI * - w)) by (field; lra).
      nra. }
    destruct Hc as [Hc|Hc].
    + apply cs_concentration_some in Hc as [Hd ->].
      assert (0 < kernel 0.1 0.05 (distance_to_cell x y x_min x_max y_min
                 y_max n i j)
                (angle_to_cell x y x_min x_max y_min y_max n i j wd) h)
        by (apply kernel_pos; lra).
      nra.
    + apply multiple_concentration_some in Hc as (ca & cb & Hab & Hd & ->).
      assert (0 < kernel ca cb (distance_to_cell x y x_min x_max y_min
                 y_max n i j)
                (angle_to_cell x y x_min x_max y_min y_max n i j wd) h)
        by (apply kernel_pos; lra).
      nra.
Qed.

(** ** The decay on a strided grid (C7) *)

(** C7, evaluated at the failing inputs.  The grid is the 2 x 2 view of
    every other column of a 2 x 4 array of ones (strides 32 and 16 bytes) and
    the list of vehicles is empty.  The call with the eleven arguments of the
    signature fails in the parse: it returns [NULL] with [TypeError] and the
    buffer is as before, nothing has decayed.  The call with ten arguments
    passes the parse and returns [None]; the decay has multiplied the first
    four elements of the buffer: the cells (0,0) and (0,1) hold 0.99, the
    cells (1,0) and (1,1), at elements 4 and 6, still hold 1, and the
    elements 1 and 3, which are not cells of the grid, hold 0.99. *)
Theorem decay_misses_cells_of_a_strided_grid (y_max : R)
  (grid_resolution : Z) :
  let a := mkArray 2 NPY_DOUBLE 2 2 32 16 in
  let s0 := mkState (fun _ => 1) None in
  let r11 := CsModule.update_pollution_multiple
               [PyArray a; PyList []; PyFloat 1; PyFloat 0; PyFloat 1;
                PyStr "D"; PyFloat 0; PyFloat 10; PyFloat 0; PyFloat 10;
                PyLong 2] y_max grid_resolution s0 in
  let r := CsModule.update_pollution_multiple
             [PyArray a; PyList []; PyFloat 1; PyFloat 0; PyFloat 1;
              PyStr "D"; PyFloat 0; PyFloat 10; PyFloat 0; PyLong 10]
             y_max grid_resolution s0 in
  (ret r11 = NULL /\ exc_indicator (final r11) = Some TypeError
   /\ data (final r11) = data s0)
  /\ ret r = Py_None /\ exc_indicator (final r) = None
  /\ (CsModule.cell_index a 0 0 = 0 /\ CsModule.cell_index a 0 1 = 2
      /\ CsModule.cell_index a 1 0 = 4 /\ CsModule.cell_index a 1 1 = 6)%Z
  /\ data (final r) (CsModule.cell_index a 0 0) = 0.99
  /\ data (final r) (CsModule.cell_index a 0 1) = 0.99
  /\ data (final r) (CsModule.cell_index a 1 0) = 1
  /\ data (final r) (CsModule.cell_index a 1 1) = 1
  /\ data (final r) 1%Z = 0.99 /\ data (final r) 3%Z = 0.99.
Proof.
  intros a s0 r11 r.
  split; [repeat split; reflexivity|].
  assert (Hr : r = mkResult Py_None
                     (mkState (CsModule.decay 4 (data s0)) None))
    by reflexivity.
  rewrite Hr.
  change (CsModule.cell_index a 0 0) with 0%Z.
  change (CsModule.cell_index a 0 1) with 2%Z.
  change (CsModule.cell_index a 1 0) with 4%Z.
  change (CsModule.cell_index a 1 1) with 6%Z.
  cbn [ret final data exc_indicator].
  rewrite !decay_inside by lia. rewrite !decay_outside by lia.
  simpl. rewrite !decay_inside by lia.
  repeat split; try reflexivity; lra.
Qed.

(** ** The window of a vehicle (C9) *)

Lemma trunc_IZR (n : Z) : trunc (IZR n) = n.
Proof.
  unfold trunc. destruct (Rle_dec 0 (IZR n)) as [H|H].
  - apply Int_part_IZR.
  - rewrite <- opp_IZR, Int_part_IZR. lia.
Qed.

Lemma int_of_double_IZR (v : R) (n : Z) :
  v = IZR n ->
  int_of_double v
  = if ((INT_MIN <=? n) && (n <=? INT_MAX))%Z then n else INT_MIN.
Proof. intros ->. unfold int_of_double. rewrite trunc_IZR. reflexivity. Qed.

Lemma sqrt_between (v : R) : 1 <= v <= 90000 -> 1 <= sqrt v <= 300.
Proof.
  intros [H1 H2]. split.
  - rewrite <- sqrt_1. apply sqrt_le_1_alt. exact H1.
  - replace 300 with (sqrt 90000)
      by (apply sqrt_of_square; lra).
    apply sqrt_le_1_alt. exact H2.
Qed.

Lemma multiple_concentration_in_band (stability_class : string)
  (x y emission_rate plume_height wind_speed
   wind_direction x_min x_max y_min y_max : R) (grid_resolution i j : Z) :
  1 <= distance_to_cell x y x_min x_max y_min y_max grid_resolution i j
    <= 300 ->
  CsModule.concentration_multiple stability_class x y emission_rate
    plume_height wind_speed wind_direction x_min x_max y_min y_max
    grid_resolution i j <> None.
Proof.
  unfold CsModule.concentration_multiple, distance_to_cell.
  destruct (CsModule.offset_to_receptor _ _ _ _ _ _ _ _ _) as [dx dy].
  cbv zeta. intros [Hlo Hhi].
  pose proof (sum_squares_nonneg dx dy) as Hnn.
  destruct (Rlt_dec _ _) as [H|_].
  { assert (sqrt (dx * dx + dy * dy) < 1) by (apply sqrt_lt_1; lra). lra. }
  destruct (Rgt_dec _ _) as [H|_]; [lra|].
  destruct (CsModule.calculate_dispersion_coefficients _ _). discriminate.
Qed.

(** C9, evaluated at failing inputs.  For the area [0,100]^2 with
    grid_resolution 10 and a source at x = 3e10, the quotient for j_min is
    2999999990, beyond [INT_MAX]: the conversion gives j_min = [INT_MIN] < 0
    while j_max = 10, so the loop runs over negative columns.  For one cell
    of width 5e-8 (x_max = 5e-8, grid_resolution 1) and a source at
    x = 299.9999999, the quotient is 3999999998 and j_min is [INT_MIN]
    again; the cell (0,-1) is in the window, it is not a cell of the 1 x 1
    array, its centre is in the band, so the body stores its concentration,
    and the element it stores to is [data[-1]]: the call returns [None] with
    no error and has raised the element before the start of the buffer. *)
Theorem window_overflows_the_int_range :
  CsModule.window 30000000000 5 0 100 0 100 10
    (mkArray 2 NPY_DOUBLE 10 10 80 8)
  = (0, 10, INT_MIN, 10)%Z
  /\ (INT_MIN < 0)%Z
  /\ let b := mkArray 2 NPY_DOUBLE 1 1 8 8 in
     let w := CsModule.window 299.9999999 5 0 0.00000005 0 10 1 b in
     let s0 := mkState (fun _ => 0) None in
     let r := CsModule.update_pollution_multiple
                [PyArray b;
                 PyList [PyTuple [PyFloat 299.9999999; PyFloat 5; PyFloat 10]];
                 PyFloat 1; PyFloat 0; PyFloat 1; PyStr "D"; PyFloat 0;
                 PyFloat 0.00000005; PyFloat 0; PyLong 0] 10 1 s0 in
     w = (0, 1, INT_MIN, 1)%Z
     /\ in_window w 0 (-1)
     /\ ~ in_bounds b 0 (-1)
     /\ CsModule.cell_index b 0 (-1) = (-1)%Z
     /\ 1 <= distance_to_cell 299.9999999 5 0 0.00000005 0 10 1 0 (-1) <= 300
     /\ CsModule.concentration_multiple "D" 299.9999999 5 1 2 1 0
          0 0.00000005 0 10 1 0 (-1) <> None
     /\ ret r = Py_None /\ exc_indicator (final r) = None
     /\ data s0 (-1)%Z = 0 /\ 0 < data (final r) (-1)%Z.
Proof.
  assert (W1 : CsModule.window 30000000000 5 0 100 0 100 10
                 (mkArray 2 NPY_DOUBLE 10 10 80 8)
               = (0, 10, INT_MIN, 10)%Z).
  { unfold CsModule.window, fmax, fmin. cbv zeta. simpl dims0. simpl dims1.
    rewrite (int_of_double_IZR _ 0)
      by (rewrite Rmax_left by lra; lra).
    rewrite (int_of_double_IZR _ 10)
      by (rewrite Rmin_left by lra; lra).
    rewrite (int_of_double_IZR _ 2999999990)
      by (rewrite Rmax_right by lra; lra).
    rewrite (int_of_double_IZR _ 10)
      by (rewrite Rmin_left by lra; lra).
    reflexivity. }
  assert (W2 : CsModule.window 299.9999999 5 0 0.00000005 0 10 1
                 (mkArray 2 NPY_DOUBLE 1 1 8 8)
               = (0, 1, INT_MIN, 1)%Z).
  { unfold CsModule.window, fmax, fmin. cbv zeta. simpl dims0. simpl dims1.
    rewrite (int_of_double_IZR _ 0)
      by (rewrite Rmax_left by lra; lra).
    rewrite (int_of_double_IZR _ 1)
      by (rewrite Rmin_left by lra; lra).
    rewrite (int_of_double_IZR _ 3999999998)
      by (rewrite Rmax_right by lra; lra).
    rewrite (int_of_double_IZR _ 1)
      by (rewrite Rmin_left by lra; lra).
    reflexivity. }
  assert (Hd : 1 <= distance_to_cell 299.9999999 5 0 0.00000005 0 10 1 0 (-1)
               <= 300).
  { unfold distance_to_cell, CsModule.offset_to_receptor.
    apply sqrt_between. lra. }
  split; [exact W1|]. split; [reflexivity|].
  intros b w s0 r. fold b in W2. unfold w. rewrite W2.
  split; [reflexivity|].
  split; [unfold in_window, INT_MIN; lia|].
  split; [unfold in_bounds; simpl; lia|].
  split; [reflexivity|]. split; [exact Hd|].
  split; [now apply multiple_concentration_in_band|].
  set (v := PyTuple [PyFloat 299.9999999; PyFloat 5; PyFloat 10]).
  assert (Hr : r = CsModule.vehicles_loop b 1 0 1 "D" 0 0.00000005 0 10 1
                     [v] (mkState (CsModule.decay 1 (data s0)) None))
    by reflexivity.
  rewrite Hr, vehicles_loop_single by reflexivity.
  split; [reflexivity|]. cbn [final].
  split; [rewrite update_vehicle_exc; reflexivity|].
  split; [reflexivity|].
  rewrite update_vehicle_data. cbv zeta.
  change (as_double (PyTuple_GetItem v 0)) with 299.9999999.
  change (as_double (PyTuple_GetItem v 1)) with 5.
  change (as_double (PyTuple_GetItem v 2)) with 10.
  rewrite W2.
  assert (Hoff : forall i j, CsModule.cell_index b i j = (i + j)%Z).
  { intros i j. unfold CsModule.cell_index. cbv zeta.
    change (div_sizeof_double (PyArray_STRIDE0 b)) with 1%Z.
    change (div_sizeof_double (PyArray_STRIDE1 b)) with 1%Z. lia. }
  set (conc := CsModule.concentration_multiple "D" 299.9999999 5
                 (CsModule.calculate_emission_rate 10 1)
                 (CsModule.calculate_plume_rise 10) 1 0 0 0.00000005 0 10
                 1).
  pose proof (accumulate_at (CsModule.cell_index b) conc 0 1 INT_MIN 1
                0 (-1) (CsModule.decay 1 (data s0))) as Hat.
  rewrite !Hoff in Hat. change (0 + -1)%Z with (-1)%Z in Hat.
  cbn [data] in Hat |- *. rewrite Hat; clear Hat; subst conc.
  - rewrite decay_outside by lia.
    assert (He : CsModule.calculate_emission_rate 10 1 = 0.1).
    { unfold CsModule.calculate_emission_rate. cbv zeta.
      destruct (Rgt_dec 10 20); lra. }
    destruct (CsModule.concentration_multiple "D" 299.9999999 5
                (CsModule.calculate_emission_rate 10 1)
                (CsModule.calculate_plume_rise 10) 1 0 0 0.00000005 0 10
                1 0 (-1)) as [c|] eqn:Hc.
    + apply multiple_concentration_some in Hc
        as (ca & cb & Hab & Hd' & ->).
      rewrite He. simpl.
      assert (0 < kernel ca cb
                    (distance_to_cell 299.9999999 5 0 0.00000005 0 10 1 0 (-1))
                    (angle_to_cell 299.9999999 5 0 0.00000005 0 10 1 0 (-1) 0)
                    (CsModule.calculate_plume_rise 10))
        by (apply kernel_pos; lra).
      assert (0 < 0.1 / (2 * PI * 1)).
      { apply Rdiv_lt_0_compat; [lra|]. pose proof PI_RGT_0. lra. }
      assert (0 < 0.1 / (2 * PI * 1)
                  * kernel ca cb
                      (distance_to_cell 299.9999999 5 0 0.00000005 0 10 1 0 (-1))
                      (angle_to_cell 299.9999999 5 0 0.00000005 0 10 1 0 (-1) 0)
                      (CsModule.calculate_plume_rise 10))
        by now apply Rmult_lt_0_compat.
      lra.
    + exfalso. revert Hc. now apply multiple_concentration_in_band.
  - lia.
  - unfold INT_MIN. lia.
  - intros i j Hi Hj Hne. right. rewrite Hoff. intros Heq.
    apply Hne. f_equal; lia.
Qed.

(** ** [update_pollution_multiple]: failures and unchecked fields *)

Lemma parse_d_error (o : PyObject) (e : exc) :
  parse_d o = inl e -> e = TypeError \/ e = OverflowError.
Proof. apply double_of_error. Qed.

Lemma parse_s_error (o : PyObject) (e : exc) :
  parse_s o = inl e -> e = TypeError \/ e = ValueError.
Proof.
  destruct o; simpl; try (intros [= <-]; now left).
  destruct (has_nul u); intros H; [|discriminate H].
  injection H as <-. now right.
Qed.

Lemma parse_i_error (o : PyObject) (e : exc) :
  parse_i o = inl e -> e = TypeError \/ e = OverflowError.
Proof.
  destruct o; simpl; try (intros [= <-]; now left).
  destruct (_ && _); intros H; [discriminate H|].
  injection H as <-. now right.
Qed.

(** The parse accepts ten arguments only, and fails with one of three
    errors. *)
Lemma parse_OOdddsdddi_error (args : list PyObject) (e : exc) :
  CsModule.parse_OOdddsdddi args = inl e ->
  e = TypeError \/ e = OverflowError \/ e = ValueError.
Proof.
  destruct args as [|grid [|vehicle_list rest]];
    try (intros [= <-]; now left).
  do 8 (destruct rest as [|? rest]; [intros [= <-]; now left|]).
  destruct rest; [|intros [= <-]; now left].
  unfold CsModule.parse_OOdddsdddi, bind.
  repeat match goal with
  | |- context [parse_d ?p] =>
      let E := fresh "E" in
      destruct (parse_d p) eqn:E;
      [apply parse_d_error in E; intros [= <-]; tauto|]
  | |- context [parse_s ?p] =>
      let E := fresh "E" in
      destruct (parse_s p) eqn:E;
      [apply parse_s_error in E; intros [= <-]; tauto|]
  | |- context [parse_i ?p] =>
      let E := fresh "E" in
      destruct (parse_i p) eqn:E;
      [apply parse_i_error in E; intros [= <-]; tauto|]
  end.
  discriminate.
Qed.

Lemma parse_OOdddsdddi_length (args : list PyObject) :
  List.length args <> 10%nat ->
  CsModule.parse_OOdddsdddi args = inl TypeError.
Proof.
  intros H.
  do 10 (destruct args as [|? args]; [reflexivity|]).
  destruct args; [|reflexivity].
  exfalso. apply H. reflexivity.
Qed.

(** [update_pollution_multiple] on any argument tuple.  With a number of
    arguments other than ten, eleven included, it returns [NULL] with
    [TypeError] and has written nothing.  When it returns [None] there were
    ten arguments, the first a 2-D array of doubles, the second a list of
    3-tuples.  When it returns [NULL], either nothing has been written and
    the error is [TypeError], [OverflowError] or [ValueError] (from the
    parse or the two type checks), or the second argument is a list with an
    entry that is not a 3-tuple and the error is [ValueError]. *)
Theorem update_batch_failure_modes (args : list PyObject) (y_max : R)
  (grid_resolution : Z) (s : state) :
  let r := CsModule.update_pollution_multiple args y_max grid_resolution s in
  (List.length args <> 10%nat ->
   r = mkResult NULL (mkState (data s) (Some TypeError)))
  /\ (ret r = Py_None ->
      exists grid vehicles rest,
        args = grid :: PyList vehicles :: rest
        /\ List.length rest = 8%nat
        /\ CsModule.grid_is_2d_double grid = true
        /\ Forall (fun v => CsModule.is_3tuple v = true) vehicles)
  /\ (ret r = NULL ->
      (data (final r) = data s
       /\ (exc_indicator (final r) = Some TypeError
           \/ exc_indicator (final r) = Some OverflowError
           \/ exc_indicator (final r) = Some ValueError))
      \/ (exc_indicator (final r) = Some ValueError
          /\ exists grid vehicles rest,
               args = grid :: PyList vehicles :: rest
               /\ forallb CsModule.is_3tuple vehicles = false)).
Proof.
  intros r. split; [|split].
  - intros H. unfold r, CsModule.update_pollution_multiple.
    rewrite parse_OOdddsdddi_length by assumption. reflexivity.
  - intros H.
    destruct (Nat.eq_dec (List.length args) 10) as [Hl|Hl].
    + destruct args as [|grid [|vehicle_list rest]]; try discriminate Hl.
      destruct vehicle_list as [| | | |vehicles| |];
        try (exfalso; revert H; unfold r; rewrite update_batch_unfold;
             destruct (CsModule.parse_OOdddsdddi _)
               as [e|[[[[[[[[[g0 v0] ws] wd] ef] cls] xm] xM] ym] n]];
             [discriminate|];
             unfold CsModule.update_pollution_multiple_body;
             destruct (negb _); discriminate).
      exists grid, vehicles, rest.
      apply update_batch_passed in H
        as (ws & wd & ef & cls & xm & xM & ym & Hg & Hv & _).
      repeat split; try assumption. simpl in Hl. lia.
    + exfalso. revert H. unfold r, CsModule.update_pollution_multiple.
      rewrite parse_OOdddsdddi_length by assumption. discriminate.
  - unfold r, CsModule.update_pollution_multiple.
    destruct (CsModule.parse_OOdddsdddi args)
      as [e|[[[[[[[[[grid vehicle_list] ws] wd] ef] cls] xm] xM] ym] n]]
      eqn:Hp.
    + intros _. left. split; [reflexivity|].
      apply parse_OOdddsdddi_error in Hp. simpl.
      destruct Hp as [-> | [-> | ->]]; tauto.
    + unfold CsModule.update_pollution_multiple_body.
      destruct (negb (CsModule.grid_is_2d_double grid));
        [intros _; left; split; [reflexivity|now left]|].
      destruct vehicle_list as [| | | |vehicles| |];
        try (intros _; left; split; [reflexivity|now left]).
      cbn [negb PyList_Check PyList_items]. intros H. right. split.
      * now apply vehicles_loop_null.
      * do 10 (destruct args as [|? args]; [discriminate Hp|]).
        destruct args; [|discriminate Hp].
        revert Hp. unfold CsModule.parse_OOdddsdddi, bind.
        repeat match goal with
        | |- context [parse_d ?p] =>
            destruct (parse_d p); [discriminate|]
        | |- context [parse_s ?p] =>
            destruct (parse_s p); [discriminate|]
        | |- context [parse_i ?p] =>
            destruct (parse_i p); [discriminate|]
        end.
        intros Hp. inversion Hp; subst.
        eexists _, vehicles, _. split; [reflexivity|].
        rewrite vehicles_loop_ret in H.
        destruct (forallb CsModule.is_3tuple vehicles);
          [discriminate|reflexivity].
Qed.

(** With emission_factor >= 0 and wind_speed > 0 no vehicle lowers an
    element. *)
Lemma vehicles_loop_nonneg (a : PyArrayObject)
  (wind_speed wind_direction emission_factor : R) (stability_class : string)
  (x_min x_max y_min y_max : R) (grid_resolution : Z)
  (vehicles : list PyObject) (s : state) (k : Z) :
  0 <= emission_factor -> 0 < wind_speed ->
  data s k
  <= data (final (CsModule.vehicles_loop a wind_speed wind_direction
                    emission_factor stability_class x_min x_max y_min y_max
                    grid_resolution vehicles s)) k.
Proof.
  intros He Hw. revert s.
  induction vehicles as [|v vs IH]; intros s; [simpl; lra|].
  simpl. destruct (CsModule.is_3tuple v); simpl; [|lra].
  eapply Rle_trans; [|apply IH].
  rewrite update_vehicle_data. cbv zeta.
  destruct (CsModule.window _ _ _ _ _ _ _ _) as [[[i_min i_max] j_min] j_max].
  apply accumulate_nonneg. intros i j c _ _ Hc.
  apply multiple_concentration_some in Hc as (ca & cb & Hab & Hd & ->).
  apply Rmult_le_pos.
  - unfold Rdiv. apply Rmult_le_pos; [now apply emission_rate_nonneg|].
    apply Rlt_le, Rinv_0_lt_compat.
    pose proof PI_RGT_0. apply Rmult_lt_0_compat; lra.
  - apply Rlt_le, kernel_pos; lra.
Qed.

(** With emission_factor >= 0, wind_speed > 0 and a value other than 0 in
    [grid_resolution], a buffer without negative elements has none after
    [update_pollution_multiple], whatever the other arguments and whether or
    not the call fails. *)
Theorem update_batch_keeps_nonnegative (grid vehicle_list o4 : PyObject)
  (wind_speed emission_factor : R) (rest : list PyObject)
  (y_max : R) (grid_resolution : Z) (s : state) (k : Z) :
  0 < wind_speed -> 0 <= emission_factor -> grid_resolution <> 0%Z ->
  (forall k', 0 <= data s k') ->
  0 <= data (final (CsModule.update_pollution_multiple
                      (grid :: vehicle_list :: PyFloat wind_speed :: o4
                       :: PyFloat emission_factor :: rest)
                      y_max grid_resolution s)) k.
Proof.
  intros Hw He _ Hs. rewrite update_batch_unfold.
  do 5 (destruct rest as [|? rest]; [apply Hs|]).
  destruct rest; [|apply Hs].
  unfold CsModule.parse_OOdddsdddi, bind.
  change (parse_d (PyFloat wind_speed)) with (@inr exc R wind_speed).
  change (parse_d (PyFloat emission_factor))
    with (@inr exc R emission_factor).
  cbv beta iota.
  repeat match goal with
  | |- context [parse_d ?p] => destruct (parse_d p); [apply Hs|]
  | |- context [parse_s ?p] => destruct (parse_s p); [apply Hs|]
  | |- context [parse_i ?p] => destruct (parse_i p); [apply Hs|]
  end.
  unfold CsModule.update_pollution_multiple_body.
  destruct (negb _); [apply Hs|].
  destruct (negb _); [apply Hs|].
  eapply Rle_trans; [|now apply vehicles_loop_nonneg]. simpl.
  destruct (Z_le_dec 0 k) as [H0|H0];
    [destruct (Z_lt_dec k (PyArray_SIZE (header grid))) as [H1|H1]|].
  - rewrite decay_inside by lia. pose proof (Hs k). lra.
  - rewrite decay_outside by lia. apply Hs.
  - rewrite decay_outside by lia. apply Hs.
Qed.

Lemma update_batch_keeps_nonnegative_witness :
  0 <= data (final (CsModule.update_pollution_multiple
                      [PyArray (mkArray 2 NPY_DOUBLE 1 1 8 8);
                       PyList [PyTuple [PyFloat 0; PyFloat 5; PyFloat 10]];
                       PyFloat 1; PyFloat 0; PyFloat 1; PyStr "D";
                       PyFloat 0; PyFloat 10; PyFloat 0; PyLong 0]
                      10 1 (mkState (fun _ => 1) None))) 0%Z.
Proof.
  apply update_batch_keeps_nonnegative.
  - lra.
  - lra.
  - lia.
  - intros k'. simpl. lra.
Defined.

(** ** Fields of a vehicle that are not numbers *)

Lemma vehicles_loop_as_floats (a : PyArrayObject)
  (wind_speed wind_direction emission_factor : R) (stability_class : string)
  (x_min x_max y_min y_max : R) (grid_resolution : Z)
  (vehicles : list PyObject) (s1 s2 : state) :
  let as_floats := fun v =>
    PyTuple [PyFloat (as_double (PyTuple_GetItem v 0));
             PyFloat (as_double (PyTuple_GetItem v 1));
             PyFloat (as_double (PyTuple_GetItem v 2))] in
  Forall (fun v => CsModule.is_3tuple v = true) vehicles ->
  (forall k, data s1 k = data s2 k) ->
  forall k,
    data (final (CsModule.vehicles_loop a wind_speed wind_direction
                   emission_factor stability_class x_min x_max y_min y_max
                   grid_resolution vehicles s1)) k
    = data (final (CsModule.vehicles_loop a wind_speed wind_direction
                     emission_factor stability_class x_min x_max y_min y_max
                     grid_resolution (map as_floats vehicles) s2)) k.
Proof.
  intros as_floats Hall. revert s1 s2.
  induction Hall as [|v vs Hv Hvs IH]; intros s1 s2 Hs k; [apply Hs|].
  simpl. rewrite Hv. simpl. apply IH. intros k'.
  rewrite !update_vehicle_data. cbv zeta.
  change (as_double (PyTuple_GetItem (as_floats v) 0))
    with (as_double (PyTuple_GetItem v 0)).
  change (as_double (PyTuple_GetItem (as_floats v) 1))
    with (as_double (PyTuple_GetItem v 1)).
  change (as_double (PyTuple_GetItem (as_floats v) 2))
    with (as_double (PyTuple_GetItem v 2)).
  destruct (CsModule.window _ _ _ _ _ _ _ _) as [[[i_min i_max] j_min] j_max].
  rewrite accumulate_additive.
  rewrite (accumulate_additive _ _ _ _ _ _ _ (data s2)).
  rewrite Hs. reflexivity.
Qed.

(** The fields of a 3-tuple are not checked.  In a call that passes the
    parse and the two type checks, with a list of 3-tuples: the call returns
    [None]; the error indicator is left alone when every field is a float
    or an integer within the range of a double, and is [TypeError] or
    [OverflowError] otherwise; the buffer is the one the call leaves when
    every field is replaced by the double read from it, which is -1.0 for a
    field that does not convert. *)
Theorem update_batch_unchecked_fields (grid : PyObject)
  (vehicles rest : list PyObject) (y_max : R) (grid_resolution : Z)
  (s : state) :
  let call := fun l =>
    CsModule.update_pollution_multiple (grid :: PyList l :: rest)
      y_max grid_resolution s in
  let numbers := fun v =>
    is_number (PyTuple_GetItem v 0) && is_number (PyTuple_GetItem v 1)
    && is_number (PyTuple_GetItem v 2) in
  let as_floats := fun v =>
    PyTuple [PyFloat (as_double (PyTuple_GetItem v 0));
             PyFloat (as_double (PyTuple_GetItem v 1));
             PyFloat (as_double (PyTuple_GetItem v 2))] in
  ret (call []) = Py_None ->
  Forall (fun v => CsModule.is_3tuple v = true) vehicles ->
  ret (call vehicles) = Py_None
  /\ (forallb numbers vehicles = true ->
      exc_indicator (final (call vehicles)) = exc_indicator s)
  /\ (forallb numbers vehicles = false ->
      exc_indicator (final (call vehicles)) = Some TypeError
      \/ exc_indicator (final (call vehicles)) = Some OverflowError)
  /\ (forall k, data (final (call vehicles)) k
                = data (final (call (map as_floats vehicles))) k)
  /\ (forall o, is_number o = false -> as_double o = -1).
Proof.
  intros call numbers as_floats Hok Hall.
  apply update_batch_passed in Hok
    as (ws & wd & ef & cls & xm & xM & ym & Hg & _ & Hcall).
  unfold call. rewrite !Hcall.
  split; [now apply vehicles_loop_returns|].
  pose proof (vehicles_loop_exc (header grid) ws wd ef cls xm xM ym y_max
                grid_resolution vehicles
                (mkState (CsModule.decay (PyArray_SIZE (header grid))
                            (data s)) (exc_indicator s)) Hall) as [E1 E2].
  split; [exact E1|]. split; [exact E2|]. split.
  - intros k. apply vehicles_loop_as_floats; [assumption|reflexivity].
  - intros o Ho. unfold is_number in Ho. unfold as_double.
    destruct (double_of o); [reflexivity|discriminate].
Qed.

Lemma update_batch_unchecked_fields_witness :
  let grid := PyArray (mkArray 2 NPY_DOUBLE 1 1 8 8) in
  let s := mkState (fun _ => 1) None in
  let vehicles := [PyTuple [PyNone; PyFloat 5; PyFloat 10];
                   PyTuple [PyFloat 5; PyLong (2 ^ 1024); PyFloat 10]] in
  let rest := [PyFloat 1; PyFloat 0; PyFloat 1; PyStr "D"; PyFloat 0;
               PyFloat 10; PyFloat 0; PyLong 0] in
  let call := fun l =>
    CsModule.update_pollution_multiple (grid :: PyList l :: rest) 10 1 s in
  let numbers := fun v =>
    is_number (PyTuple_GetItem v 0) && is_number (PyTuple_GetItem v 1)
    && is_number (PyTuple_GetItem v 2) in
  let as_floats := fun v =>
    PyTuple [PyFloat (as_double (PyTuple_GetItem v 0));
             PyFloat (as_double (PyTuple_GetItem v 1));
             PyFloat (as_double (PyTuple_GetItem v 2))] in
  ret (call vehicles) = Py_None
  /\ (forallb numbers vehicles = true ->
      exc_indicator (final (call vehicles)) = exc_indicator s)
  /\ (forallb numbers vehicles = false ->
      exc_indicator (final (call vehicles)) = Some TypeError
      \/ exc_indicator (final (call vehicles)) = Some OverflowError)
  /\ (forall k, data (final (call vehicles)) k
                = data (final (call (map as_floats vehicles))) k)
  /\ (forall o, is_number o = false -> as_double o = -1).
Proof.
  intros grid s vehicles rest.
  apply (update_batch_unchecked_fields grid vehicles rest 10 1 s).
  - reflexivity.
  - repeat constructor.
Defined.
